(** * Construction helper bot

    A shallow embedding of [cchatbot.py]: the glossary scan
    ([is_construction_related], [get_knowledge_answer]), the response
    generator ([generate_response]) and the form handler that runs when the
    user presses Send, followed by the properties of the decision procedure
    that turns one utterance plus the conversation history into one reply.

    Conventions of the model.
    - A Python [str] is a Rocq [string] holding its UTF-8 bytes.  The
      substring test [key in text] agrees on bytes and on code points because
      UTF-8 is self-synchronising.  [str.lower] is modelled on the ASCII
      letters; bytes above 127 are left as they are, so the model and the
      builtin agree on ASCII text only.  The general theorems below use two
      facts about lowering and no other: it is idempotent and its result
      has no byte [A]..[Z]; the builtin has both.  Nothing here relies on
      lowering two pieces of a text apart, which the builtin does not
      allow.
    - The glossary is the dict returned by [json.load]; it is kept as the
      list of its items in iteration order, which is what both scans of the
      program enumerate.
    - [TextBlob(text).correct()] and the [transformers] pipeline [nlp] are
      libraries outside the program.  They are parameters of the model and
      may raise.
    - The glossary file maps keyword phrases to answer strings, so an answer
      is a [string]; it may be empty.
    - Effects (the session history, [st.info], the calls made to the
      knowledge lookup and to the model, [st.rerun]) are threaded through a
      small state-and-exception monad.  The state survives an exception, as
      it does in Python. *)

From Stdlib Require Import String Ascii List NArith Bool Arith Lia.
Import ListNotations.
Open Scope string_scope.

(** ** Python primitives used by the program *)

Module Py.

(** [c] is one of the bytes [A]..[Z]. *)
Definition is_upper (c : ascii) : bool :=
  let n := N_of_ascii c in ((65 <=? n) && (n <=? 90))%N.

Definition lower_ascii (c : ascii) : ascii :=
  if is_upper c then ascii_of_N (N_of_ascii c + 32) else c.

(** [s.lower()] *)
Fixpoint lower (s : string) : string :=
  match s with
  | EmptyString => EmptyString
  | String c rest => String (lower_ascii c) (lower rest)
  end.

(** [sub in s] on strings: [sub] starts at some position of [s]. *)
Fixpoint contains (sub s : string) : bool :=
  prefix sub s ||
  match s with
  | EmptyString => false
  | String _ rest => contains sub rest
  end.

(** [sep.join(parts)] *)
Fixpoint join (sep : string) (parts : list string) : string :=
  match parts with
  | [] => EmptyString
  | [p] => p
  | p :: rest => p ++ sep ++ join sep rest
  end.

(** [l[-n:]] for a positive [n]: the last [n] items, or all of [l] when it
    has fewer. *)
Definition slice_last {A : Type} (n : nat) (l : list A) : list A :=
  skipn (length l - n) l.

(** Truth value of an [Optional[str]]: [None] and the empty string are
    falsy. *)
Definition truthy (o : option string) : bool :=
  match o with
  | Some (String _ _) => true
  | _ => false
  end.

(** [d[key]] on a dict kept as its items; [None] stands for [KeyError]. *)
Fixpoint dict_get (key : string) (d : list (string * string)) : option string :=
  match d with
  | [] => None
  | (k, v) :: rest => if k =? key then Some v else dict_get key rest
  end.

Definition nl : string := String "010" EmptyString.
Definition dquote : string := String "034" EmptyString.

End Py.

(** The declarative reading of [sub in s]. *)
Definition is_substring (sub s : string) : Prop :=
  exists before after, s = before ++ sub ++ after.

(** ** Results and effects *)

Inductive exn : Type :=
| IndexError
| KeyError (key : string)
| LibraryError (msg : string).

Inductive result (A : Type) : Type :=
| Ok (a : A)
| Raise (e : exn).

Arguments Ok {A} a.
Arguments Raise {A} e.

(** One conversation turn as the program stores it: [(sender, msg)]. *)
Definition turn : Type := (string * string)%type.

(** What a run does besides changing the history. *)
Inductive event : Type :=
| StInfo (msg : string)
| KnowledgeLookup (user_input : string)
| ModelCall (prompt : string) (max_length num_return_sequences : nat)
| StRerun.

Record World : Type := mkWorld {
  history : list turn;      (* st.session_state.history *)
  trace : list event        (* oldest first *)
}.

Definition M (A : Type) : Type := World -> result A * World.

Definition ret {A : Type} (a : A) : M A := fun w => (Ok a, w).

Definition bind {A B : Type} (c : M A) (k : A -> M B) : M B :=
  fun w =>
    match c w with
    | (Ok a, w') => k a w'
    | (Raise e, w') => (Raise e, w')
    end.

Declare Scope py_scope.
Delimit Scope py_scope with py.
Notation "x <- c ;; k" := (bind c (fun x => k))
  (at level 61, c at next level, right associativity) : py_scope.
Notation "c ;; k" := (bind c (fun _ => k))
  (at level 61, right associativity) : py_scope.
Open Scope py_scope.

(** A library call: its outcome, raised or returned. *)
Definition lift {A : Type} (r : result A) : M A := fun w => (r, w).

Definition emit (ev : event) : M unit :=
  fun w => (Ok tt, mkWorld (history w) (trace w ++ [ev])).

(** [st.session_state.history.append(t)] *)
Definition history_append (t : turn) : M unit :=
  fun w => (Ok tt, mkWorld (history w ++ [t]) (trace w)).

Definition get_history : M (list turn) := fun w => (Ok (history w), w).

(** The prompts handed to the model, and the texts handed to the knowledge
    lookup, in a trace. *)
Fixpoint model_calls (t : list event) : list string :=
  match t with
  | [] => []
  | ModelCall prompt _ _ :: rest => prompt :: model_calls rest
  | _ :: rest => model_calls rest
  end.

Fixpoint lookup_calls (t : list event) : list string :=
  match t with
  | [] => []
  | KnowledgeLookup text :: rest => text :: lookup_calls rest
  | _ :: rest => lookup_calls rest
  end.

Fixpoint info_messages (t : list event) : list string :=
  match t with
  | [] => []
  | StInfo msg :: rest => msg :: info_messages rest
  | _ :: rest => info_messages rest
  end.

(** ** The program *)

Definition glossary : Type := list (string * string).

(** Output of the text2text pipeline: a list of dicts. *)
Definition generations : Type := list (list (string * string)).

Definition sender_user : string := "👤 You".
Definition sender_bot : string := "🤖 Bot".

Definition refusal : string :=
  "⚠️ Sorry, I only answer construction-related questions.".

Definition did_you_mean (corrected : string) : string :=
  "🔧 Did you mean: **" ++ corrected ++ "** ?".

(** The text of the f-string before [{context}]. *)
Definition instruction_header : string :=
  Py.nl ++
  "    You are a civil engineer expert." ++ Py.nl ++
  "    Answer clearly and only about construction materials, IS codes, and civil engineering." ++ Py.nl ++
  "    If irrelevant, reply: " ++ Py.dquote ++
  "Sorry, I only answer construction-related questions." ++ Py.dquote ++ Py.nl ++
  Py.nl ++
  "    Chat history:" ++ Py.nl ++
  "    ".

(** The text between [{context}] and [{user_input}], and the text after. *)
Definition user_marker : string := Py.nl ++ Py.nl ++ "    User: ".
Definition prompt_tail : string := Py.nl ++ "    ".

Definition format_turn (t : turn) : string := fst t ++ ": " ++ snd t.

Definition build_context (history : list turn) : string :=
  Py.join Py.nl (map format_turn (Py.slice_last 3 history)).

Definition build_prompt (user_input : string) (history : list turn) : string :=
  instruction_header ++ build_context history ++
  user_marker ++ user_input ++ prompt_tail.

Section Chatbot.

(** [knowledge_base = load_glossary()] *)
Variable knowledge_base : glossary.
(** [str(TextBlob(text).correct())] *)
Variable textblob_correct : string -> result string.
(** [nlp = load_model()], called as [nlp(prompt, max_length, num_return_sequences)] *)
Variable nlp : string -> nat -> nat -> result generations.

Definition correct_spelling (text : string) : result string :=
  textblob_correct text.

Definition is_construction_related (text : string) : bool :=
  existsb (fun word => Py.contains word (Py.lower text))
          (map fst knowledge_base).

(** The [for key, value in ....items()] loop of [get_knowledge_answer]. *)
Fixpoint scan_items (items : glossary) (user_input : string) : option string :=
  match items with
  | [] => None
  | (key, value) :: rest =>
      if Py.contains key (Py.lower user_input) then Some value
      else scan_items rest user_input
  end.

Definition get_knowledge_answer (user_input : string) : option string :=
  scan_items knowledge_base user_input.

(** [nlp(prompt, max_length=250, num_return_sequences=1)[0]["generated_text"]] *)
Definition run_model (prompt : string) : M string :=
  emit (ModelCall prompt 250 1) ;;
  outputs <- lift (nlp prompt 250 1) ;;
  first <- lift (match outputs with
                 | [] => Raise IndexError
                 | d :: _ => Ok d
                 end) ;;
  lift (match Py.dict_get "generated_text" first with
        | None => Raise (KeyError "generated_text")
        | Some text => Ok text
        end).

Definition generate_response (user_input : string) (history : list turn)
  : M string :=
  emit (KnowledgeLookup user_input) ;;
  let kb_answer := get_knowledge_answer user_input in
  if Py.truthy kb_answer then
    ret (match kb_answer with Some value => value | None => EmptyString end)
  else
    let prompt := build_prompt user_input history in
    response <- run_model prompt ;;
    ret response.

(** The body of [if submitted and user_input:] up to the assignment of
    [answer]. *)
Definition compute_answer (user_input : string) : M string :=
  corrected <- lift (correct_spelling user_input) ;;
  if negb (is_construction_related corrected) then
    ret refusal
  else
    (if negb (Py.lower corrected =? Py.lower user_input)
     then emit (StInfo (did_you_mean corrected))
     else ret tt) ;;
    h <- get_history ;;
    generate_response corrected h.

(** The form handler: everything from [if submitted and user_input:] to
    [st.rerun()]. *)
Definition submitted_handler (submitted : bool) (user_input : string)
  : M unit :=
  if submitted && Py.truthy (Some user_input) then
    answer <- compute_answer user_input ;;
    history_append (sender_user, user_input) ;;
    history_append (sender_bot, answer) ;;
    emit StRerun
  else
    ret tt.

End Chatbot.

(** The world after the [if corrected.lower() != user_input.lower():]
    statement of the handler. *)
Definition advised (user_input corrected : string) (w : World) : World :=
  if negb (Py.lower corrected =? Py.lower user_input)
  then mkWorld (history w) (trace w ++ [StInfo (did_you_mean corrected)])
  else w.

(** The world after the call of [get_knowledge_answer] is recorded. *)
Definition looked_up (user_input : string) (w : World) : World :=
  mkWorld (history w) (trace w ++ [KnowledgeLookup user_input]).

(** The world after the call of [nlp] is recorded. *)
Definition called_model (prompt : string) (w : World) : World :=
  mkWorld (history w) (trace w ++ [ModelCall prompt 250 1]).

(** ** Conditions on the glossary that the claims refer to *)

(** Keys are case-normalised: lowering a key leaves it as it is. *)
Definition keys_lowercase (kb : glossary) : Prop :=
  Forall (fun entry => Py.lower (fst entry) = fst entry) kb.

(** Every canned answer is a non-empty string. *)
Definition answers_nonempty (kb : glossary) : Prop :=
  Forall (fun entry => snd entry <> EmptyString) kb.

(** No key of [items] occurs in the lowercased [text]. *)
Definition no_key_matches (items : glossary) (text : string) : Prop :=
  Forall (fun entry => ~ is_substring (fst entry) (Py.lower text)) items.

(** ** Concrete glossaries, correctors and models *)

Module Demo.

Definition cement_answer : string := "Cement is a binding material...".
Definition concrete_answer : string :=
  "Concrete is a mix of cement, sand, aggregate and water.".

Definition kb : glossary :=
  [("cement", cement_answer); ("concrete", concrete_answer)].

(** A glossary whose only entry has an empty answer. *)
Definition kb_blank : glossary := [("beam", EmptyString)].

(** A corrector that repairs two misspellings and keeps other texts. *)
Definition corrector (text : string) : result string :=
  if text =? "what is cemant" then Ok "what is cement"
  else if text =? "wether today" then Ok "weather today"
  else Ok text.

Definition corrector_failing (text : string) : result string :=
  Raise (LibraryError "corrector failed").

Definition beam_text : string := "A beam is a horizontal structural member.".

Definition nlp (prompt : string) (max_length num_return_sequences : nat)
  : result generations :=
  Ok [[("generated_text", beam_text)]].

Definition nlp_failing (prompt : string) (max_length num_return_sequences : nat)
  : result generations :=
  Raise (LibraryError "model backend unavailable").

Definition w0 : World := mkWorld [] [].

(** A session with four stored turns. *)
Definition w4 : World :=
  mkWorld [(sender_user, "what is cement"); (sender_bot, cement_answer);
           (sender_user, "and concrete"); (sender_bot, concrete_answer)]
          [].

End Demo.

(** ** The chat history on the page and the session *)

(** The bubbles of the rendering loop: the message goes into the markup as
    it is ([unsafe_allow_html=True]). *)
Definition user_bubble (msg : string) : string :=
  "<div class='user-bubble'>" ++ msg ++ "</div>".

Definition bot_bubble (msg : string) : string :=
  "<div class='bot-bubble'>" ++ msg ++ "</div>".

(** The body of [for sender, msg in st.session_state.history:]. *)
Definition render_turn (t : turn) : string :=
  if fst t =? "👤 You" then user_bubble (snd t) else bot_bubble (snd t).

(** The arguments of the [st.markdown] calls that draw the chat container,
    in the order of the calls. *)
Definition render_history (h : list turn) : list string :=
  ["<div class='chat-container'>"] ++ map render_turn h ++ ["</div>"].

(** [if "history" not in st.session_state: st.session_state.history = []];
    [None] is a session state without the key. *)
Definition ensure_history (stored : option (list turn)) : list turn :=
  match stored with
  | None => []
  | Some h => h
  end.

(** What the form gives one run of the script: the state of the Send button
    and the content of the text field. *)
Definition submission : Type := (bool * string)%type.

(** One run of the script from the chat history on: the history is created
    if the session has none, the stored turns are drawn, and the form handler
    runs.  The result is the page drawn and the outcome of the handler. *)
Definition script_run (kb : glossary) (corrector : string -> result string)
           (nlp : string -> nat -> nat -> result generations)
           (stored : option (list turn)) (tr : list event) (sub : submission)
  : list string * (result unit * World) :=
  let h := ensure_history stored in
  (render_history h,
   submitted_handler kb corrector nlp (fst sub) (snd sub) (mkWorld h tr)).

(** A session: the script runs once per element of [inputs]; the session
    state left by a run, also by one that ended in an exception, is the one
    the next run starts from. *)
Fixpoint run_session (kb : glossary) (corrector : string -> result string)
         (nlp : string -> nat -> nat -> result generations)
         (inputs : list submission) (stored : option (list turn))
         (tr : list event) : World :=
  match inputs with
  | [] => mkWorld (ensure_history stored) tr
  | sub :: rest =>
      let w' := snd (snd (script_run kb corrector nlp stored tr sub)) in
      run_session kb corrector nlp rest (Some (history w')) (trace w')
  end.

(** Some byte of [s] is one of [A]..[Z]. *)
Fixpoint has_upper (s : string) : bool :=
  match s with
  | EmptyString => false
  | String c rest => Py.is_upper c || has_upper rest
  end.

(** A history made of exchanges: a user turn with a non-empty text, then a
    bot turn, any number of times. *)
Inductive exchanges : list turn -> Prop :=
| exchanges_nil : exchanges []
| exchanges_snoc (h : list turn) (question answer : string) :
    exchanges h ->
    question <> EmptyString ->
    exchanges (h ++ [(sender_user, question); (sender_bot, answer)]).

(** ** The prompt template as the specification prints it *)



(** ** The model on concrete inputs *)

Example lower_mixed_case : Py.lower "What is CEMENT?" = "what is cement?".
Proof. reflexivity. Qed.

Example contains_inner : Py.contains "cement" "what is cement?" = true.
Proof. reflexivity. Qed.

Example contains_empty_key : Py.contains EmptyString "anything" = true.
Proof. reflexivity. Qed.

Example contains_longer_key : Py.contains "cement mortar" "cement" = false.
Proof. reflexivity. Qed.

Example slice_last_short : Py.slice_last 3 [1; 2] = [1; 2].
Proof. reflexivity. Qed.

Example slice_last_long : Py.slice_last 3 [1; 2; 3; 4; 5] = [3; 4; 5].
Proof. reflexivity. Qed.

Example join_three : Py.join ", " ["a"; "b"; "c"] = "a, b, c".
Proof. reflexivity. Qed.

Example join_none : Py.join ", " [] = EmptyString.
Proof. reflexivity. Qed.

(** The prompt of a session with four stored turns, line by line as the
    f-string of the program lays it out. *)
Example prompt_lines :
  build_prompt "what is a beam" (history Demo.w4) =
  Py.join Py.nl
    [ EmptyString;
      "    You are a civil engineer expert.";
      "    Answer clearly and only about construction materials, IS codes, and civil engineering.";
      "    If irrelevant, reply: " ++ Py.dquote ++
        "Sorry, I only answer construction-related questions." ++ Py.dquote;
      EmptyString;
      "    Chat history:";
      "    🤖 Bot: Cement is a binding material...";
      "👤 You: and concrete";
      "🤖 Bot: Concrete is a mix of cement, sand, aggregate and water.";
      EmptyString;
      "    User: what is a beam";
      "    " ].
Proof. reflexivity. Qed.

(** Scenario A of the specification: the misspelt question is corrected,
    the advisory is emitted, and the answer comes from the glossary. *)
Example scenario_cemant :
  submitted_handler Demo.kb Demo.corrector Demo.nlp true "what is cemant" Demo.w0
  = (Ok tt,
     mkWorld [(sender_user, "what is cemant"); (sender_bot, Demo.cement_answer)]
             [StInfo (did_you_mean "what is cement");
              KnowledgeLookup "what is cement";
              StRerun]).
Proof. reflexivity. Qed.

(** An empty input, or a run without the button pressed, does nothing. *)
Example scenario_empty_input :
  submitted_handler Demo.kb Demo.corrector Demo.nlp true EmptyString Demo.w4
  = (Ok tt, Demo.w4).
Proof. reflexivity. Qed.

(** A key stored with a capital letter is compared as it is stored, so it
    never occurs in a lowercased text. *)
Example capital_key_never_matches :
  is_construction_related [("Cement", Demo.cement_answer)] "Cement" = false.
Proof. reflexivity. Qed.

(** An entry with an empty answer passes the filter and is then treated as
    no answer: the model is asked. *)
Example blank_answer_reaches_model :
  model_calls
    (trace (snd (submitted_handler Demo.kb_blank Demo.corrector Demo.nlp true
                                   "what is a beam" Demo.w0)))
  = [build_prompt "what is a beam" []].
Proof. reflexivity. Qed.

(** The page for a stored exchange. *)
Example render_one_exchange :
  render_history [(sender_user, "what is cement"); (sender_bot, "A binder.")]
  = ["<div class='chat-container'>";
     "<div class='user-bubble'>what is cement</div>";
     "<div class='bot-bubble'>A binder.</div>";
     "</div>"].
Proof. reflexivity. Qed.

(** A session of four runs: a question, the rerun, an empty submission and
    a text that is refused. *)
Example session_of_four_runs :
  history (run_session Demo.kb Demo.corrector Demo.nlp
             [(true, "what is cemant"); (false, EmptyString);
              (true, EmptyString); (true, "wether today")] None [])
  = [(sender_user, "what is cemant"); (sender_bot, Demo.cement_answer);
     (sender_user, "wether today"); (sender_bot, refusal)].
Proof. reflexivity. Qed.

(** ** Strings *)

Lemma prefix_app (sub s : string) :
  prefix sub s = true <-> exists after, s = sub ++ after.
Proof.
  revert s; induction sub as [|c sub IH]; intros s; simpl.
  - split; [intros _; exists s; reflexivity | intros _; destruct s; reflexivity].
  - destruct s as [|d s]; simpl.
    + split; [discriminate | intros [after H]; discriminate].
    + destruct (Ascii.ascii_dec c d) as [->|Hcd].
      * rewrite IH. split; intros [after H]; exists after.
        -- now rewrite H.
        -- now inversion H.
      * split; [discriminate | intros [after H]; congruence].
Qed.

Lemma contains_spec (sub s : string) :
  Py.contains sub s = true <-> is_substring sub s.
Proof.
  unfold is_substring. induction s as [|d s IH]; cbn [Py.contains].
  - rewrite orb_false_r, prefix_app. split.
    + intros [after H]. exists EmptyString, after. exact H.
    + intros [before [after H]]. destruct before; simpl in H.
      * exists after. exact H.
      * discriminate.
  - rewrite orb_true_iff, prefix_app, IH. split.
    + intros [[after H] | [before [after H]]].
      * exists EmptyString, after. exact H.
      * exists (String d before), after. simpl. now rewrite H.
    + intros [before [after H]]. destruct before as [|b before]; simpl in H.
      * left. exists after. exact H.
      * right. exists before, after. now inversion H.
Qed.

Lemma contains_false (sub s : string) :
  Py.contains sub s = false <-> ~ is_substring sub s.
Proof.
  rewrite <- contains_spec. destruct (Py.contains sub s); split; intros H;
    try reflexivity; try discriminate; try (intros H'; discriminate).
  exfalso; apply H; reflexivity.
Qed.

Lemma truthy_some (v : string) :
  Py.truthy (Some v) = true <-> v <> EmptyString.
Proof.
  destruct v; simpl; split; intros H; try reflexivity; try discriminate.
  now contradiction H.
Qed.



(** ** The two glossary scans *)

Lemma scan_items_none (items : glossary) (text : string) :
  scan_items items text = None <-> no_key_matches items text.
Proof.
  unfold no_key_matches. induction items as [|[key value] rest IH]; simpl.
  - split; [constructor | reflexivity].
  - destruct (Py.contains key (Py.lower text)) eqn:Hc.
    + split; [discriminate|]. intros H. inversion H as [|? ? Hk _]; subst.
      simpl in Hk. apply contains_spec in Hc. contradiction.
    + rewrite IH. split.
      * intros H. constructor; [now apply contains_false | exact H].
      * intros H. now inversion H.
Qed.

Lemma scan_items_first (pre post : glossary) (key value text : string) :
  no_key_matches pre text ->
  is_substring key (Py.lower text) ->
  scan_items ((pre ++ (key, value) :: post)%list) text = Some value.
Proof.
  intros Hpre Hkey. induction Hpre as [|[k v] pre Hk _ IH]; simpl.
  - apply contains_spec in Hkey. now rewrite Hkey.
  - simpl in Hk. apply contains_false in Hk. now rewrite Hk.
Qed.

Lemma scan_items_some (items : glossary) (text value : string) :
  scan_items items text = Some value ->
  exists pre key post,
    items = (pre ++ (key, value) :: post)%list /\
    is_substring key (Py.lower text) /\
    no_key_matches pre text.
Proof.
  induction items as [|[k v] rest IH]; simpl; [discriminate|].
  destruct (Py.contains k (Py.lower text)) eqn:Hc.
  - intros [= ->]. exists [], k, rest. repeat split.
    + now apply contains_spec.
    + constructor.
  - intros H. destruct (IH H) as (pre & key & post & -> & Hkey & Hpre).
    exists ((k, v) :: pre), key, post. repeat split; trivial.
    constructor; [now apply contains_false | exact Hpre].
Qed.

Lemma related_iff_key (kb : glossary) (text : string) :
  is_construction_related kb text = true <->
  exists key, In key (map fst kb) /\ is_substring key (Py.lower text).
Proof.
  unfold is_construction_related. rewrite existsb_exists.
  split; intros [key [Hin H]]; exists key; split; trivial;
    now apply contains_spec.
Qed.

Lemma related_iff_answer (kb : glossary) (text : string) :
  is_construction_related kb text = true <->
  get_knowledge_answer kb text <> None.
Proof.
  unfold is_construction_related, get_knowledge_answer.
  induction kb as [|[key value] rest IH]; simpl.
  - split; [discriminate | intros H; now contradiction H].
  - destruct (Py.contains key (Py.lower text)); simpl.
    + split; [discriminate | reflexivity].
    + exact IH.
Qed.

Lemma scan_items_answer_in (items : glossary) (text value : string) :
  scan_items items text = Some value -> In value (map snd items).
Proof.
  intros H. destruct (scan_items_some _ _ _ H) as (pre & key & post & -> & _).
  rewrite map_app. apply in_or_app. right. now left.
Qed.

(** ** Traces *)

Lemma model_calls_app (t1 t2 : list event) :
  model_calls (t1 ++ t2) = (model_calls t1 ++ model_calls t2)%list.
Proof.
  induction t1 as [|ev t1 IH]; simpl; [reflexivity|].
  destruct ev; simpl; now rewrite IH.
Qed.

Lemma lookup_calls_app (t1 t2 : list event) :
  lookup_calls (t1 ++ t2) = (lookup_calls t1 ++ lookup_calls t2)%list.
Proof.
  induction t1 as [|ev t1 IH]; simpl; [reflexivity|].
  destruct ev; simpl; now rewrite IH.
Qed.

Lemma info_messages_app (t1 t2 : list event) :
  info_messages (t1 ++ t2) = (info_messages t1 ++ info_messages t2)%list.
Proof.
  induction t1 as [|ev t1 IH]; simpl; [reflexivity|].
  destruct ev; simpl; now rewrite IH.
Qed.

Lemma advised_history (user_input corrected : string) (w : World) :
  history (advised user_input corrected w) = history w.
Proof. unfold advised. now destruct (negb _). Qed.

Lemma advised_model_calls (user_input corrected : string) (w : World) :
  model_calls (trace (advised user_input corrected w)) = model_calls (trace w).
Proof.
  unfold advised. destruct (negb _); simpl; [|reflexivity].
  rewrite model_calls_app. simpl. apply app_nil_r.
Qed.

(** ** Runs of the program *)

Section Runs.

Variable kb : glossary.
Variable corrector : string -> result string.
Variable nlp : string -> nat -> nat -> result generations.

Lemma run_model_ok (prompt : string) (w : World) d rest text :
  nlp prompt 250 1 = Ok (d :: rest) ->
  Py.dict_get "generated_text" d = Some text ->
  run_model nlp prompt w = (Ok text, called_model prompt w).
Proof.
  intros Hnlp Hd. unfold run_model, bind, emit, lift. simpl.
  now rewrite Hnlp, Hd.
Qed.

Lemma run_model_raise (prompt : string) (w : World) (e : exn) :
  nlp prompt 250 1 = Raise e ->
  run_model nlp prompt w = (Raise e, called_model prompt w).
Proof.
  intros Hnlp. unfold run_model, bind, emit, lift. simpl.
  now rewrite Hnlp.
Qed.

(** Whatever the model does, the call is recorded and nothing else
    changes. *)
Lemma run_model_world (prompt : string) (w : World) :
  snd (run_model nlp prompt w) = called_model prompt w.
Proof.
  unfold run_model, bind, emit, lift. simpl.
  destruct (nlp prompt 250 1) as [[|d rest]|e]; simpl; trivial.
Qed.

Lemma generate_response_answered (user_input : string) (h : list turn)
      (w : World) :
  Py.truthy (get_knowledge_answer kb user_input) = true ->
  exists value,
    get_knowledge_answer kb user_input = Some value /\
    generate_response kb nlp user_input h w =
      (Ok value, looked_up user_input w).
Proof.
  intros Ht. unfold generate_response, bind, emit. simpl. rewrite Ht.
  destruct (get_knowledge_answer kb user_input) as [value|];
    [|discriminate]. now exists value.
Qed.

Lemma generate_response_generating (user_input : string) (h : list turn)
      (w : World) :
  Py.truthy (get_knowledge_answer kb user_input) = false ->
  generate_response kb nlp user_input h w =
    run_model nlp (build_prompt user_input h) (looked_up user_input w).
Proof.
  intros Ht. unfold generate_response. unfold bind at 1. unfold emit.
  rewrite Ht. unfold bind at 1, ret.
  fold (looked_up user_input w).
  now destruct (run_model nlp (build_prompt user_input h)
                          (looked_up user_input w)) as [[text|e] w'].
Qed.

Lemma generate_response_history (user_input : string) (h : list turn)
      (w : World) :
  history (snd (generate_response kb nlp user_input h w)) = history w.
Proof.
  destruct (Py.truthy (get_knowledge_answer kb user_input)) eqn:Ht.
  - destruct (generate_response_answered user_input h w Ht)
      as [value [_ ->]]. reflexivity.
  - rewrite (generate_response_generating user_input h w Ht).
    now rewrite run_model_world.
Qed.

Lemma compute_answer_corrector_raise (user_input : string) (w : World)
      (e : exn) :
  corrector user_input = Raise e ->
  compute_answer kb corrector nlp user_input w = (Raise e, w).
Proof.
  intros Hc. unfold compute_answer, correct_spelling, bind, lift.
  now rewrite Hc.
Qed.

Lemma compute_answer_refused (user_input corrected : string) (w : World) :
  corrector user_input = Ok corrected ->
  is_construction_related kb corrected = false ->
  compute_answer kb corrector nlp user_input w = (Ok refusal, w).
Proof.
  intros Hc Hr. unfold compute_answer, correct_spelling, bind, lift.
  now rewrite Hc, Hr.
Qed.

Lemma compute_answer_related (user_input corrected : string) (w : World) :
  corrector user_input = Ok corrected ->
  is_construction_related kb corrected = true ->
  compute_answer kb corrector nlp user_input w =
    generate_response kb nlp corrected (history w)
                      (advised user_input corrected w).
Proof.
  intros Hc Hr. unfold compute_answer, correct_spelling.
  unfold bind at 1. unfold lift. rewrite Hc, Hr. cbn [negb].
  unfold advised, bind, get_history, emit, ret.
  now destruct (negb (Py.lower corrected =? Py.lower user_input)).
Qed.

Lemma compute_answer_history (user_input : string) (w : World) :
  history (snd (compute_answer kb corrector nlp user_input w)) = history w.
Proof.
  destruct (corrector user_input) as [corrected|e] eqn:Hc.
  - destruct (is_construction_related kb corrected) eqn:Hr.
    + rewrite (compute_answer_related _ _ w Hc Hr).
      rewrite generate_response_history. apply advised_history.
    + now rewrite (compute_answer_refused _ _ w Hc Hr).
  - now rewrite (compute_answer_corrector_raise _ w _ Hc).
Qed.

Lemma submitted_handler_ok (user_input answer : string) (w w1 : World) :
  user_input <> EmptyString ->
  compute_answer kb corrector nlp user_input w = (Ok answer, w1) ->
  submitted_handler kb corrector nlp true user_input w =
    (Ok tt,
     mkWorld (history w1 ++ [(sender_user, user_input); (sender_bot, answer)])
             (trace w1 ++ [StRerun])).
Proof.
  intros Hne Hrun. unfold submitted_handler.
  apply truthy_some in Hne. rewrite Hne. cbn [andb].
  unfold bind. rewrite Hrun. unfold history_append, emit. simpl.
  now rewrite <- app_assoc.
Qed.

Lemma submitted_handler_raise (user_input : string) (e : exn)
      (w w1 : World) :
  user_input <> EmptyString ->
  compute_answer kb corrector nlp user_input w = (Raise e, w1) ->
  submitted_handler kb corrector nlp true user_input w = (Raise e, w1).
Proof.
  intros Hne Hrun. unfold submitted_handler.
  apply truthy_some in Hne. rewrite Hne. cbn [andb].
  unfold bind. now rewrite Hrun.
Qed.

Lemma submitted_handler_idle (submitted : bool) (user_input : string)
      (w : World) :
  submitted && Py.truthy (Some user_input) = false ->
  submitted_handler kb corrector nlp submitted user_input w = (Ok tt, w).
Proof. intros H. unfold submitted_handler. now rewrite H. Qed.

End Runs.
(** C3. [get_knowledge_answer] walks the glossary in its enumeration order
    and returns the answer of the first entry whose key is a substring of
    the lowercased input; it returns [None] exactly when no key is. *)
Theorem C3_lookup_first_match (kb : glossary) (text : string) :
  (forall value,
      get_knowledge_answer kb text = Some value <->
      exists pre key post,
        kb = (pre ++ (key, value) :: post)%list /\
        is_substring key (Py.lower text) /\
        no_key_matches pre text) /\
  (get_knowledge_answer kb text = None <-> no_key_matches kb text).
Proof.
  unfold get_knowledge_answer. split.
  - intros value. split.
    + apply scan_items_some.
    + intros (pre & key & post & -> & Hkey & Hpre).
      now apply scan_items_first.
  - apply scan_items_none.
Qed.

(** C4 as stated fails on a key stored with a capital letter: the
    lowercased text contains the lowercased key, and the filter, which
    compares the key as stored, is false. *)
Lemma C4_counterexample :
  let kb := [("Cement", Demo.cement_answer)] in
  let text := "what is cement" in
  (exists key, In key (map fst kb) /\
               is_substring (Py.lower key) (Py.lower text)) /\
  is_construction_related kb text = false.
Proof.
  cbv zeta. split; [|reflexivity].
  exists "Cement". split; [left; reflexivity|].
  exists "what is ", EmptyString. reflexivity.
Qed.

(** C4, amended.  For every text and glossary, the relevance filter is true
    exactly when the lowercased text contains, as a substring, at least one
    glossary key as it is stored: the keys are not lowercased.  On a
    glossary whose keys are all lowercase this is the same as containing
    the lowercased form of a key. *)
Theorem C4_relevance_stored_keys (kb : glossary) (text : string) :
  (is_construction_related kb text = true <->
   exists key, In key (map fst kb) /\ is_substring key (Py.lower text)) /\
  (keys_lowercase kb ->
   (is_construction_related kb text = true <->
    exists key, In key (map fst kb) /\
                is_substring (Py.lower key) (Py.lower text))).
Proof.
  split; [apply related_iff_key|].
  intros Hkeys. rewrite related_iff_key.
  assert (Hlow : forall key, In key (map fst kb) -> Py.lower key = key).
  { intros key Hin. apply in_map_iff in Hin. destruct Hin as [entry [<- Hin]].
    unfold keys_lowercase in Hkeys. rewrite Forall_forall in Hkeys.
    now apply Hkeys. }
  split; intros [key [Hin H]]; exists key; split; trivial.
  - now rewrite (Hlow key Hin).
  - now rewrite (Hlow key Hin) in H.
Qed.

(** ** The knowledge answer short-circuits generation *)

(** C1 as stated fails when two keys occur in the text: the reply is the
    answer of the first of them in glossary order, not that of every key the
    text contains.  Here the text contains the key [concrete], and the reply
    is the answer stored under [cement]. *)
Lemma C1_counterexample :
  let raw := "cement concrete mix" in
  let run := submitted_handler Demo.kb Demo.corrector Demo.nlp true raw Demo.w0 in
  Demo.corrector raw = Ok raw /\
  In ("concrete", Demo.concrete_answer) Demo.kb /\
  is_substring "concrete" (Py.lower raw) /\
  fst (compute_answer Demo.kb Demo.corrector Demo.nlp raw Demo.w0)
    <> Ok Demo.concrete_answer /\
  history (snd run)
    = [(sender_user, raw); (sender_bot, Demo.cement_answer)].
Proof.
  cbv zeta. split; [reflexivity|]. split; [right; left; reflexivity|].
  split; [apply contains_spec; reflexivity|].
  split; [vm_compute; discriminate | reflexivity].
Qed.

(** C1, amended.  When the corrected text, lowercased, contains a glossary
    key, and the first such key in glossary order has a non-empty answer, the
    reply is that first key's answer verbatim; the handler stores it as the
    bot turn and the model is not called. *)
Theorem C1_first_match_answers
        (kb : glossary) (corrector : string -> result string)
        (nlp : string -> nat -> nat -> result generations)
        (raw corrected key value : string) (pre post : glossary) (w : World) :
  raw <> EmptyString ->
  corrector raw = Ok corrected ->
  kb = (pre ++ (key, value) :: post)%list ->
  no_key_matches pre corrected ->
  is_substring key (Py.lower corrected) ->
  value <> EmptyString ->
  exists w',
    submitted_handler kb corrector nlp true raw w = (Ok tt, w') /\
    fst (compute_answer kb corrector nlp raw w) = Ok value /\
    history w' = (history w ++ [(sender_user, raw); (sender_bot, value)])%list /\
    model_calls (trace w') = model_calls (trace w).
Proof.
  intros Hraw Hc Hkb Hpre Hkey Hval.
  assert (Hget : get_knowledge_answer kb corrected = Some value).
  { unfold get_knowledge_answer. rewrite Hkb. now apply scan_items_first. }
  assert (Hrel : is_construction_related kb corrected = true).
  { apply related_iff_answer. rewrite Hget. discriminate. }
  assert (Ht : Py.truthy (get_knowledge_answer kb corrected) = true).
  { rewrite Hget. now apply truthy_some. }
  destruct (generate_response_answered kb nlp corrected (history w)
              (advised raw corrected w) Ht) as [value' [Hget' Hgen]].
  assert (value' = value) by congruence. subst value'.
  assert (Hrun : compute_answer kb corrector nlp raw w =
                 (Ok value, looked_up corrected (advised raw corrected w))).
  { now rewrite (compute_answer_related kb corrector nlp raw corrected w Hc Hrel). }
  eexists. split; [exact (submitted_handler_ok kb corrector nlp raw value w _ Hraw Hrun)|].
  split; [now rewrite Hrun|]. split.
  - simpl. now rewrite advised_history.
  - simpl. rewrite !model_calls_app. simpl. rewrite !app_nil_r.
    apply advised_model_calls.
Qed.

Lemma C1_first_match_answers_witness :
  exists w',
    submitted_handler Demo.kb Demo.corrector Demo.nlp true "what is cemant" Demo.w0
      = (Ok tt, w') /\
    fst (compute_answer Demo.kb Demo.corrector Demo.nlp "what is cemant" Demo.w0)
      = Ok Demo.cement_answer /\
    history w' = (history Demo.w0 ++
                  [(sender_user, "what is cemant");
                   (sender_bot, Demo.cement_answer)])%list /\
    model_calls (trace w') = model_calls (trace Demo.w0).
Proof.
  apply (C1_first_match_answers Demo.kb Demo.corrector Demo.nlp
           "what is cemant" "what is cement" "cement" Demo.cement_answer
           [] [("concrete", Demo.concrete_answer)] Demo.w0).
  - discriminate.
  - reflexivity.
  - reflexivity.
  - constructor.
  - exists "what is ", EmptyString. reflexivity.
  - discriminate.
Defined.

(** ** Refusal *)

(** C2 as stated fails on the text of the reply: the refusal the handler
    stores starts with a warning sign, so it is not exactly the sentence the
    claim quotes. *)
Lemma C2_counterexample :
  let raw := "what is the weather today" in
  Demo.corrector raw = Ok raw /\
  is_construction_related Demo.kb raw = false /\
  fst (compute_answer Demo.kb Demo.corrector Demo.nlp raw Demo.w0)
    <> Ok "Sorry, I only answer construction-related questions.".
Proof.
  cbv zeta. split; [reflexivity|]. split; [reflexivity|].
  vm_compute. discriminate.
Qed.

(** C2, amended.  When the corrected text fails the relevance filter, the
    reply is exactly the refusal string of the program, which is the quoted
    sentence after a warning sign and a space; the handler stores the user
    turn and this reply, and calls neither the knowledge lookup nor the
    model. *)
Theorem C2_refusal
        (kb : glossary) (corrector : string -> result string)
        (nlp : string -> nat -> nat -> result generations)
        (raw corrected : string) (w : World) :
  raw <> EmptyString ->
  corrector raw = Ok corrected ->
  is_construction_related kb corrected = false ->
  refusal = "⚠️ " ++ "Sorry, I only answer construction-related questions." /\
  compute_answer kb corrector nlp raw w = (Ok refusal, w) /\
  exists w',
    submitted_handler kb corrector nlp true raw w = (Ok tt, w') /\
    history w' = (history w ++ [(sender_user, raw); (sender_bot, refusal)])%list /\
    lookup_calls (trace w') = lookup_calls (trace w) /\
    model_calls (trace w') = model_calls (trace w).
Proof.
  intros Hraw Hc Hrel.
  pose proof (compute_answer_refused kb corrector nlp raw corrected w Hc Hrel)
    as Hrun.
  split; [reflexivity|]. split; [exact Hrun|].
  eexists. split; [exact (submitted_handler_ok kb corrector nlp raw refusal w w Hraw Hrun)|].
  simpl. rewrite lookup_calls_app, model_calls_app. simpl.
  now rewrite !app_nil_r.
Qed.

Lemma C2_refusal_witness :
  refusal = "⚠️ " ++ "Sorry, I only answer construction-related questions." /\
  compute_answer Demo.kb Demo.corrector Demo.nlp "what is the weather today" Demo.w4
    = (Ok refusal, Demo.w4) /\
  exists w',
    submitted_handler Demo.kb Demo.corrector Demo.nlp true
                      "what is the weather today" Demo.w4 = (Ok tt, w') /\
    history w' = (history Demo.w4 ++
                  [(sender_user, "what is the weather today");
                   (sender_bot, refusal)])%list /\
    lookup_calls (trace w') = lookup_calls (trace Demo.w4) /\
    model_calls (trace w') = model_calls (trace Demo.w4).
Proof.
  apply (C2_refusal Demo.kb Demo.corrector Demo.nlp
           "what is the weather today" "what is the weather today" Demo.w4).
  - discriminate.
  - reflexivity.
  - reflexivity.
Defined.

(** ** Failures of the libraries *)

(** C5 as stated fails: nothing catches an exception of the model.  With a
    backend that raises, the exception is the outcome of
    [generate_response] and of the handler, and no apology is stored. *)
Lemma C5_counterexample :
  let failure := LibraryError "model backend unavailable" in
  fst (generate_response Demo.kb Demo.nlp_failing "explain IS 456" [] Demo.w0)
    = Raise failure /\
  submitted_handler Demo.kb_blank Demo.corrector Demo.nlp_failing true
                    "what is a beam" Demo.w0
    = (Raise failure,
       mkWorld [] [KnowledgeLookup "what is a beam";
                   ModelCall (build_prompt "what is a beam" []) 250 1]).
Proof. cbv zeta. split; reflexivity. Qed.

(** C5, amended.  When the model raises during inference, the exception
    leaves [generate_response] and the handler as it is: there is no reply,
    and no turn is appended to the history. *)
Theorem C5_model_failure_propagates
        (kb : glossary) (corrector : string -> result string)
        (nlp : string -> nat -> nat -> result generations)
        (raw corrected : string) (w : World) (e : exn) :
  raw <> EmptyString ->
  corrector raw = Ok corrected ->
  is_construction_related kb corrected = true ->
  Py.truthy (get_knowledge_answer kb corrected) = false ->
  nlp (build_prompt corrected (history w)) 250 1 = Raise e ->
  fst (generate_response kb nlp corrected (history w) w) = Raise e /\
  exists w',
    submitted_handler kb corrector nlp true raw w = (Raise e, w') /\
    history w' = history w.
Proof.
  intros Hraw Hc Hrel Ht Hnlp. split.
  - rewrite (generate_response_generating kb nlp corrected (history w) w Ht).
    now rewrite (run_model_raise nlp _ _ e Hnlp).
  - assert (Hrun : compute_answer kb corrector nlp raw w =
                   (Raise e,
                    called_model (build_prompt corrected (history w))
                      (looked_up corrected (advised raw corrected w)))).
    { rewrite (compute_answer_related kb corrector nlp raw corrected w Hc Hrel).
      rewrite (generate_response_generating kb nlp corrected (history w) _ Ht).
      now apply run_model_raise. }
    eexists. split; [exact (submitted_handler_raise kb corrector nlp raw e w _ Hraw Hrun)|].
    simpl. apply advised_history.
Qed.

Lemma C5_model_failure_propagates_witness :
  let e := LibraryError "model backend unavailable" in
  fst (generate_response Demo.kb_blank Demo.nlp_failing "what is a beam"
                         (history Demo.w4) Demo.w4) = Raise e /\
  exists w',
    submitted_handler Demo.kb_blank Demo.corrector Demo.nlp_failing true
                      "what is a beam" Demo.w4 = (Raise e, w') /\
    history w' = history Demo.w4.
Proof.
  cbv zeta.
  apply (C5_model_failure_propagates Demo.kb_blank Demo.corrector
           Demo.nlp_failing "what is a beam" "what is a beam" Demo.w4).
  - discriminate.
  - reflexivity.
  - reflexivity.
  - reflexivity.
  - reflexivity.
Defined.

(** C6 as stated fails: [correct_spelling] has no fallback.  With a
    corrector that raises, it does not return the original text. *)
Lemma C6_counterexample :
  correct_spelling Demo.corrector_failing "what is cemant"
    <> Ok "what is cemant" /\
  fst (submitted_handler Demo.kb Demo.corrector_failing Demo.nlp true
                         "what is cemant" Demo.w0)
    = Raise (LibraryError "corrector failed").
Proof. split; [discriminate | reflexivity]. Qed.

(** C6, amended.  When the underlying corrector raises, [correct_spelling]
    raises the same exception, and the handler ends with it before anything
    else happens: no reply, no lookup, no model call, and the history and the
    trace are as they were. *)
Theorem C6_corrector_failure_propagates
        (kb : glossary) (corrector : string -> result string)
        (nlp : string -> nat -> nat -> result generations)
        (raw : string) (w : World) (e : exn) :
  raw <> EmptyString ->
  corrector raw = Raise e ->
  correct_spelling corrector raw = Raise e /\
  submitted_handler kb corrector nlp true raw w = (Raise e, w).
Proof.
  intros Hraw Hc. split; [exact Hc|].
  apply submitted_handler_raise; [exact Hraw|].
  now apply compute_answer_corrector_raise.
Qed.

Lemma C6_corrector_failure_propagates_witness :
  let e := LibraryError "corrector failed" in
  correct_spelling Demo.corrector_failing "what is cemant" = Raise e /\
  submitted_handler Demo.kb Demo.corrector_failing Demo.nlp true
                    "what is cemant" Demo.w4 = (Raise e, Demo.w4).
Proof.
  cbv zeta.
  apply (C6_corrector_failure_propagates Demo.kb Demo.corrector_failing
           Demo.nlp "what is cemant" Demo.w4).
  - discriminate.
  - reflexivity.
Defined.

(** ** Generation *)




(** ** The advisory *)


(** The handler in terms of the outcome of [compute_answer]. *)
Lemma submitted_handler_cases
      (kb : glossary) (corrector : string -> result string)
      (nlp : string -> nat -> nat -> result generations)
      (raw : string) (w : World) :
  raw <> EmptyString ->
  submitted_handler kb corrector nlp true raw w =
    match compute_answer kb corrector nlp raw w with
    | (Ok answer, w1) =>
        (Ok tt,
         mkWorld (history w1 ++ [(sender_user, raw); (sender_bot, answer)])
                 (trace w1 ++ [StRerun]))
    | (Raise e, w1) => (Raise e, w1)
    end.
Proof.
  intros Hraw.
  destruct (compute_answer kb corrector nlp raw w) as [[answer|e] w1] eqn:Hrun.
  - now apply submitted_handler_ok.
  - now apply submitted_handler_raise.
Qed.




(** ** Relevance and lookup agree *)

(** C9.  On a glossary whose answers are all non-empty, the relevance filter
    is true exactly when the lookup on the same text returns a match, so no
    run of the handler reaches the generating branch: the model calls in the
    trace are those that were there before. *)
Theorem C9_generating_unreachable (kb : glossary) :
  answers_nonempty kb ->
  (forall text,
      is_construction_related kb text = true <->
      exists value,
        get_knowledge_answer kb text = Some value /\ value <> EmptyString) /\
  (forall corrector nlp submitted raw w,
      model_calls
        (trace (snd (submitted_handler kb corrector nlp submitted raw w)))
      = model_calls (trace w)).
Proof.
  intros Hne.
  assert (Hagree : forall text,
             is_construction_related kb text = true <->
             exists value,
               get_knowledge_answer kb text = Some value /\
               value <> EmptyString).
  { intros text. rewrite related_iff_answer. split.
    - destruct (get_knowledge_answer kb text) as [value|] eqn:Hget;
        [intros _ | intros H; now contradiction H].
      exists value. split; [reflexivity|].
      apply scan_items_answer_in in Hget. apply in_map_iff in Hget.
      destruct Hget as [entry [<- Hin]].
      unfold answers_nonempty in Hne. rewrite Forall_forall in Hne.
      now apply Hne.
    - intros [value [-> _]]. discriminate. }
  split; [exact Hagree|].
  intros corrector nlp submitted raw w.
  destruct (submitted && Py.truthy (Some raw)) eqn:Hgo.
  - apply andb_true_iff in Hgo. destruct Hgo as [-> Hraw].
    apply truthy_some in Hraw.
    rewrite (submitted_handler_cases kb corrector nlp raw w Hraw).
    destruct (corrector raw) as [corrected|e] eqn:Hc.
    + destruct (is_construction_related kb corrected) eqn:Hrel.
      * rewrite (compute_answer_related kb corrector nlp raw corrected w Hc Hrel).
        destruct (proj1 (Hagree corrected) Hrel) as [value [Hget Hval]].
        assert (Ht : Py.truthy (get_knowledge_answer kb corrected) = true).
        { rewrite Hget. now apply truthy_some. }
        destruct (generate_response_answered kb nlp corrected (history w)
                    (advised raw corrected w) Ht) as [value' [_ ->]].
        simpl. rewrite !model_calls_app. simpl. rewrite !app_nil_r.
        apply advised_model_calls.
      * rewrite (compute_answer_refused kb corrector nlp raw corrected w Hc Hrel).
        simpl. rewrite model_calls_app. simpl. apply app_nil_r.
    + now rewrite (compute_answer_corrector_raise kb corrector nlp raw w e Hc).
  - now rewrite (submitted_handler_idle kb corrector nlp submitted raw w Hgo).
Qed.

Lemma C9_generating_unreachable_witness :
  answers_nonempty Demo.kb /\
  (forall text,
      is_construction_related Demo.kb text = true <->
      exists value,
        get_knowledge_answer Demo.kb text = Some value /\
        value <> EmptyString) /\
  (forall corrector nlp submitted raw w,
      model_calls
        (trace (snd (submitted_handler Demo.kb corrector nlp submitted raw w)))
      = model_calls (trace w)).
Proof.
  assert (H : answers_nonempty Demo.kb).
  { repeat constructor; discriminate. }
  split; [exact H | exact (C9_generating_unreachable Demo.kb H)].
Defined.

(** ** The history *)

(** C10 as stated fails when a library raises: the input is submitted and
    not empty, the corrector fails, and the history is left as it was, so no
    two turns are appended. *)
Lemma C10_counterexample :
  let raw := "what is cemant" in
  let run := submitted_handler Demo.kb Demo.corrector_failing Demo.nlp true raw
                               Demo.w4 in
  raw <> EmptyString /\
  history (snd run) = history Demo.w4 /\
  forall answer,
    history (snd run) <>
    (history Demo.w4 ++ [(sender_user, raw); (sender_bot, answer)])%list.
Proof.
  cbv zeta. split; [discriminate|]. split; [reflexivity|].
  intros answer H. apply (f_equal (@length turn)) in H. discriminate.
Qed.

(** C10, amended.  For a submitted non-empty input, the handler appends
    exactly two turns when a reply is computed: the user turn with the raw
    input, then the bot turn with the reply, after the stored entries, which
    stay as they were.  The reply is computed from the corrected text.  When
    no reply is computed the handler ends with the exception and the history
    is unchanged.  A reply is computed exactly when the corrector returns
    and the corrected text is not relevant, or has a non-empty knowledge
    answer, or the model returns a first candidate with a generated text for
    the prompt. *)
Theorem C10_turns_appended
        (kb : glossary) (corrector : string -> result string)
        (nlp : string -> nat -> nat -> result generations)
        (raw : string) (w : World) :
  raw <> EmptyString ->
  let run := submitted_handler kb corrector nlp true raw w in
  match fst (compute_answer kb corrector nlp raw w) with
  | Ok answer =>
      fst run = Ok tt /\
      history (snd run) =
        (history w ++ [(sender_user, raw); (sender_bot, answer)])%list /\
      exists corrected,
        corrector raw = Ok corrected /\
        (if is_construction_related kb corrected
         then fst (generate_response kb nlp corrected (history w)
                                     (advised raw corrected w)) = Ok answer
         else answer = refusal)
  | Raise e => fst run = Raise e /\ history (snd run) = history w
  end /\
  ((exists answer, fst (compute_answer kb corrector nlp raw w) = Ok answer) <->
   exists corrected,
     corrector raw = Ok corrected /\
     (is_construction_related kb corrected = false \/
      Py.truthy (get_knowledge_answer kb corrected) = true \/
      exists d rest text,
        nlp (build_prompt corrected (history w)) 250 1 = Ok (d :: rest) /\
        Py.dict_get "generated_text" d = Some text)).
Proof.
  intros Hraw run. unfold run.
  rewrite (submitted_handler_cases kb corrector nlp raw w Hraw).
  pose proof (compute_answer_history kb corrector nlp raw w) as Hhist.
  split.
  - destruct (compute_answer kb corrector nlp raw w) as [[answer|e] w1] eqn:Hrun;
      simpl in *.
    + split; [reflexivity|]. split; [now rewrite Hhist|].
      destruct (corrector raw) as [corrected|e] eqn:Hc.
      * exists corrected. split; [reflexivity|].
        destruct (is_construction_related kb corrected) eqn:Hrel.
        -- rewrite <- (compute_answer_related kb corrector nlp raw corrected w Hc Hrel).
           now rewrite Hrun.
        -- rewrite (compute_answer_refused kb corrector nlp raw corrected w Hc Hrel)
             in Hrun. congruence.
      * rewrite (compute_answer_corrector_raise kb corrector nlp raw w e Hc)
          in Hrun. discriminate.
    + split; [reflexivity | exact Hhist].
  - split.
    + intros [answer Hans].
      destruct (corrector raw) as [corrected|e] eqn:Hc;
        [|rewrite (compute_answer_corrector_raise kb corrector nlp raw w e Hc)
            in Hans; discriminate].
      exists corrected. split; [reflexivity|].
      destruct (is_construction_related kb corrected) eqn:Hrel; [|now left].
      right.
      destruct (Py.truthy (get_knowledge_answer kb corrected)) eqn:Ht;
        [now left|]. right.
      rewrite (compute_answer_related kb corrector nlp raw corrected w Hc Hrel)
        in Hans.
      rewrite (generate_response_generating kb nlp corrected (history w) _ Ht)
        in Hans.
      unfold run_model, bind, emit, lift in Hans. simpl in Hans.
      destruct (nlp (build_prompt corrected (history w)) 250 1)
        as [[|d rest]|e]; try discriminate.
      destruct (Py.dict_get "generated_text" d) as [text|] eqn:Hd;
        try discriminate.
      now exists d, rest, text.
    + intros [corrected [Hc Hwhy]].
      destruct (is_construction_related kb corrected) eqn:Hrel.
      * rewrite (compute_answer_related kb corrector nlp raw corrected w Hc Hrel).
        destruct (Py.truthy (get_knowledge_answer kb corrected)) eqn:Ht.
        -- destruct (generate_response_answered kb nlp corrected (history w)
                       (advised raw corrected w) Ht) as [value [_ ->]].
           now exists value.
        -- destruct Hwhy as [Hno | [Hyes | (d & rest & text & Hout & Hd)]];
             try discriminate.
           rewrite (generate_response_generating kb nlp corrected (history w) _ Ht).
           rewrite (run_model_ok nlp _ _ d rest text Hout Hd).
           now exists text.
      * rewrite (compute_answer_refused kb corrector nlp raw corrected w Hc Hrel).
        now exists refusal.
Qed.

Lemma C10_turns_appended_witness :
  let raw := "what is cemant" in
  let run := submitted_handler Demo.kb Demo.corrector Demo.nlp_failing true raw
                               Demo.w4 in
  match fst (compute_answer Demo.kb Demo.corrector Demo.nlp_failing raw Demo.w4) with
  | Ok answer =>
      fst run = Ok tt /\
      history (snd run) =
        (history Demo.w4 ++ [(sender_user, raw); (sender_bot, answer)])%list /\
      exists corrected,
        Demo.corrector raw = Ok corrected /\
        (if is_construction_related Demo.kb corrected
         then fst (generate_response Demo.kb Demo.nlp_failing corrected
                     (history Demo.w4) (advised raw corrected Demo.w4))
              = Ok answer
         else answer = refusal)
  | Raise e => fst run = Raise e /\ history (snd run) = history Demo.w4
  end /\
  ((exists answer,
       fst (compute_answer Demo.kb Demo.corrector Demo.nlp_failing raw Demo.w4)
       = Ok answer) <->
   exists corrected,
     Demo.corrector raw = Ok corrected /\
     (is_construction_related Demo.kb corrected = false \/
      Py.truthy (get_knowledge_answer Demo.kb corrected) = true \/
      exists d rest text,
        Demo.nlp_failing (build_prompt corrected (history Demo.w4)) 250 1
          = Ok (d :: rest) /\
        Py.dict_get "generated_text" d = Some text)).
Proof.
  cbv zeta.
  apply (C10_turns_appended Demo.kb Demo.corrector Demo.nlp_failing
           "what is cemant" Demo.w4).
  discriminate.
Defined.

(** ** More on strings: case and containment *)

Lemma string_app_assoc (a b c : string) : (a ++ b) ++ c = a ++ b ++ c.
Proof. induction a as [|x a IH]; simpl; [reflexivity | now rewrite IH]. Qed.

Lemma is_substring_trans (a b c : string) :
  is_substring a b -> is_substring b c -> is_substring a c.
Proof.
  intros [p [q ->]] [r [t ->]]. exists (r ++ p), (q ++ t).
  now rewrite !string_app_assoc.
Qed.

Lemma lower_ascii_not_upper (c : ascii) :
  Py.is_upper (Py.lower_ascii c) = false.
Proof. destruct c as [[] [] [] [] [] [] [] []]; reflexivity. Qed.

Lemma lower_ascii_idempotent (c : ascii) :
  Py.lower_ascii (Py.lower_ascii c) = Py.lower_ascii c.
Proof.
  unfold Py.lower_ascii at 1. now rewrite lower_ascii_not_upper.
Qed.

Lemma lower_idempotent (s : string) : Py.lower (Py.lower s) = Py.lower s.
Proof.
  induction s as [|c s IH]; simpl; [reflexivity|].
  now rewrite lower_ascii_idempotent, IH.
Qed.

Lemma has_upper_app (a b : string) :
  has_upper (a ++ b) = has_upper a || has_upper b.
Proof.
  induction a as [|c a IH]; simpl; [reflexivity|].
  now rewrite IH, orb_assoc.
Qed.

Lemma has_upper_lower (s : string) : has_upper (Py.lower s) = false.
Proof.
  induction s as [|c s IH]; simpl; [reflexivity|].
  now rewrite lower_ascii_not_upper, IH.
Qed.

(** A key with a capital letter occurs in no lowercased text. *)
Lemma capital_key_no_match (key text : string) :
  has_upper key = true -> Py.contains key (Py.lower text) = false.
Proof.
  intros Hup. apply contains_false. intros [p [q Heq]].
  pose proof (has_upper_lower text) as Hlow.
  rewrite Heq, !has_upper_app, Hup in Hlow.
  now rewrite orb_true_r in Hlow.
Qed.

(** ** Glossaries put together, and entries that can never answer *)

Lemma scan_items_app (a b : glossary) (text : string) :
  scan_items (a ++ b)%list text =
  match scan_items a text with
  | Some value => Some value
  | None => scan_items b text
  end.
Proof.
  induction a as [|[key value] a IH]; simpl; [reflexivity|].
  now destruct (Py.contains key (Py.lower text)).
Qed.

Lemma related_app (a b : glossary) (text : string) :
  is_construction_related (a ++ b)%list text =
  is_construction_related a text || is_construction_related b text.
Proof.
  unfold is_construction_related. now rewrite map_app, existsb_app.
Qed.

(** X1.  Looking a text up in two glossaries put one after the other is
    looking it up in the first and, only when that gives no match, in the
    second; the text is relevant for the whole when it is for one of the
    two. *)
Theorem glossary_concatenation (kb1 kb2 : glossary) (text : string) :
  get_knowledge_answer (kb1 ++ kb2)%list text =
    match get_knowledge_answer kb1 text with
    | Some value => Some value
    | None => get_knowledge_answer kb2 text
    end /\
  is_construction_related (kb1 ++ kb2)%list text =
    is_construction_related kb1 text || is_construction_related kb2 text.
Proof.
  split; [apply scan_items_app | apply related_app].
Qed.

(** An entry whose key does not occur in the text can be taken out without
    changing the lookup of that text. *)
Lemma scan_items_skip (pre post : glossary) (key value text : string) :
  Py.contains key (Py.lower text) = false ->
  scan_items (pre ++ (key, value) :: post)%list text = scan_items (pre ++ post)%list text.
Proof.
  intros Hno. rewrite !scan_items_app. simpl. now rewrite Hno.
Qed.

Lemma related_skip (pre post : glossary) (key value text : string) :
  Py.contains key (Py.lower text) = false ->
  is_construction_related (pre ++ (key, value) :: post)%list text =
  is_construction_related (pre ++ post)%list text.
Proof.
  intros Hno. rewrite !related_app. unfold is_construction_related at 2.
  simpl. now rewrite Hno.
Qed.

(** X2.  An entry whose key contains the key of an earlier entry never
    answers: with the earlier key inside it, every text that contains the
    later key is answered before the scan gets there.  Taking the later
    entry out changes neither the lookup nor the relevance of any text. *)
Theorem shadowed_entry_is_dead
        (pre mid post : glossary) (key1 value1 key2 value2 text : string) :
  is_substring key1 key2 ->
  get_knowledge_answer (pre ++ (key1, value1) :: mid ++ (key2, value2) :: post)%list text
  = get_knowledge_answer (pre ++ (key1, value1) :: mid ++ post)%list text /\
  is_construction_related (pre ++ (key1, value1) :: mid ++ (key2, value2) :: post)%list text
  = is_construction_related (pre ++ (key1, value1) :: mid ++ post)%list text.
Proof.
  intros Hsub. unfold get_knowledge_answer.
  destruct (Py.contains key1 (Py.lower text)) eqn:H1.
  - split.
    + rewrite !scan_items_app. simpl. now rewrite H1.
    + rewrite !related_app. unfold is_construction_related at 2 4.
      simpl. rewrite H1. simpl. now rewrite !orb_true_r.
  - assert (H2 : Py.contains key2 (Py.lower text) = false).
    { apply contains_false. intros H. apply contains_false in H1. apply H1.
      now apply is_substring_trans with key2. }
    change (pre ++ (key1, value1) :: mid ++ (key2, value2) :: post)%list
      with (pre ++ ((key1, value1) :: mid) ++ (key2, value2) :: post)%list.
    change (pre ++ (key1, value1) :: mid ++ post)%list
      with (pre ++ ((key1, value1) :: mid) ++ post)%list.
    rewrite !app_assoc. split.
    + now apply scan_items_skip.
    + now apply related_skip.
Qed.

Lemma shadowed_entry_is_dead_witness :
  get_knowledge_answer
    ([] ++ ("cement", "binder") :: [] ++ ("cement mortar", "paste") :: [])%list
    "What is cement mortar?"
  = get_knowledge_answer ([] ++ ("cement", "binder") :: [] ++ [])%list
                         "What is cement mortar?" /\
  is_construction_related
    ([] ++ ("cement", "binder") :: [] ++ ("cement mortar", "paste") :: [])%list
    "What is cement mortar?"
  = is_construction_related ([] ++ ("cement", "binder") :: [] ++ [])%list
                            "What is cement mortar?".
Proof.
  apply (shadowed_entry_is_dead [] [] [] "cement" "binder"
           "cement mortar" "paste" "What is cement mortar?").
  exists EmptyString, " mortar". reflexivity.
Defined.

(** X3.  An entry whose key has a capital letter never answers and never
    makes a text relevant: the key is compared as stored with a lowercased
    text.  Taking the entry out changes nothing. *)
Theorem capital_key_is_dead
        (pre post : glossary) (key value text : string) :
  has_upper key = true ->
  get_knowledge_answer (pre ++ (key, value) :: post)%list text
  = get_knowledge_answer (pre ++ post)%list text /\
  is_construction_related (pre ++ (key, value) :: post)%list text
  = is_construction_related (pre ++ post)%list text.
Proof.
  intros Hup. pose proof (capital_key_no_match key text Hup) as Hno.
  split; [now apply scan_items_skip | now apply related_skip].
Qed.

Lemma capital_key_is_dead_witness :
  get_knowledge_answer ([] ++ ("Cement", "binder") :: [])%list "Cement"
  = get_knowledge_answer ([] ++ [])%list "Cement" /\
  is_construction_related ([] ++ ("Cement", "binder") :: [])%list "Cement"
  = is_construction_related ([] ++ [])%list "Cement".
Proof.
  apply (capital_key_is_dead [] [] "Cement" "binder" "Cement").
  reflexivity.
Defined.

(** X4.  The two scans do not see the case of the text: a text and its
    lowercased form are relevant together and get the same knowledge
    answer. *)
Theorem scans_ignore_case (kb : glossary) (text : string) :
  is_construction_related kb (Py.lower text) = is_construction_related kb text /\
  get_knowledge_answer kb (Py.lower text) = get_knowledge_answer kb text.
Proof.
  split.
  - unfold is_construction_related. now rewrite lower_idempotent.
  - unfold get_knowledge_answer. induction kb as [|[key value] kb IH]; simpl;
      [reflexivity|]. now rewrite lower_idempotent, IH.
Qed.

(** X6.  An entry with the empty key makes every text relevant and gives
    every text a match: the empty string occurs in every string, so the
    filter refuses nothing. *)
Theorem empty_key_matches_everything (kb : glossary) (value text : string) :
  In (EmptyString, value) kb ->
  is_construction_related kb text = true /\
  exists answer, get_knowledge_answer kb text = Some answer.
Proof.
  intros Hin.
  assert (Hrel : is_construction_related kb text = true).
  { apply related_iff_key. exists EmptyString. split.
    - apply in_map_iff. now exists (EmptyString, value).
    - exists EmptyString, (Py.lower text). reflexivity. }
  split; [exact Hrel|].
  apply related_iff_answer in Hrel.
  destruct (get_knowledge_answer kb text) as [answer|];
    [now exists answer | now contradiction Hrel].
Qed.

Lemma empty_key_matches_everything_witness :
  is_construction_related [("cement", "binder"); (EmptyString, "anything")]
                          "what is the weather today" = true /\
  exists answer,
    get_knowledge_answer [("cement", "binder"); (EmptyString, "anything")]
                         "what is the weather today" = Some answer.
Proof.
  apply (empty_key_matches_everything
           [("cement", "binder"); (EmptyString, "anything")] "anything"
           "what is the weather today").
  right. left. reflexivity.
Defined.

(** ** The prompt sees the last three turns only *)

Lemma slice_last_app {A : Type} (n : nat) (older recent : list A) :
  n <= length recent ->
  Py.slice_last n (older ++ recent) = Py.slice_last n recent.
Proof.
  intros Hlen. unfold Py.slice_last. rewrite length_app, skipn_app.
  rewrite skipn_all2 by lia. simpl. f_equal. lia.
Qed.

Lemma generate_response_same_prompt
      (kb : glossary) (nlp : string -> nat -> nat -> result generations)
      (user_input : string) (h1 h2 : list turn) (w : World) :
  build_prompt user_input h1 = build_prompt user_input h2 ->
  generate_response kb nlp user_input h1 w =
  generate_response kb nlp user_input h2 w.
Proof.
  intros Hprompt.
  destruct (Py.truthy (get_knowledge_answer kb user_input)) eqn:Ht.
  - destruct (generate_response_answered kb nlp user_input h1 w Ht)
      as [v1 [Hv1 ->]].
    destruct (generate_response_answered kb nlp user_input h2 w Ht)
      as [v2 [Hv2 ->]]. congruence.
  - rewrite !(generate_response_generating kb nlp user_input _ w Ht).
    now rewrite Hprompt.
Qed.

(** X7.  Only the last three turns of the history reach the model: turns
    stored before them change neither the prompt nor anything else
    [generate_response] does. *)
Theorem older_turns_do_not_matter
        (kb : glossary) (nlp : string -> nat -> nat -> result generations)
        (user_input : string) (older recent : list turn) (w : World) :
  3 <= length recent ->
  build_prompt user_input (older ++ recent) = build_prompt user_input recent /\
  generate_response kb nlp user_input (older ++ recent) w =
  generate_response kb nlp user_input recent w.
Proof.
  intros Hlen.
  assert (Hprompt : build_prompt user_input (older ++ recent) =
                    build_prompt user_input recent).
  { unfold build_prompt, build_context. now rewrite slice_last_app. }
  split; [exact Hprompt | now apply generate_response_same_prompt].
Qed.

Lemma older_turns_do_not_matter_witness :
  build_prompt "what is a beam"
    ([(sender_user, "what is cement")] ++
     [(sender_bot, Demo.cement_answer); (sender_user, "and concrete");
      (sender_bot, Demo.concrete_answer)])
  = build_prompt "what is a beam"
      [(sender_bot, Demo.cement_answer); (sender_user, "and concrete");
       (sender_bot, Demo.concrete_answer)] /\
  generate_response Demo.kb_blank Demo.nlp "what is a beam"
    ([(sender_user, "what is cement")] ++
     [(sender_bot, Demo.cement_answer); (sender_user, "and concrete");
      (sender_bot, Demo.concrete_answer)]) Demo.w0
  = generate_response Demo.kb_blank Demo.nlp "what is a beam"
      [(sender_bot, Demo.cement_answer); (sender_user, "and concrete");
       (sender_bot, Demo.concrete_answer)] Demo.w0.
Proof.
  apply (older_turns_do_not_matter Demo.kb_blank Demo.nlp "what is a beam"
           [(sender_user, "what is cement")]
           [(sender_bot, Demo.cement_answer); (sender_user, "and concrete");
            (sender_bot, Demo.concrete_answer)] Demo.w0).
  simpl. lia.
Defined.

(** ** Where a reply comes from *)

(** X8.  A reply is one of three things: the refusal, for a corrected text
    that is not relevant; a non-empty answer stored in the glossary under a
    key that occurs in the corrected text, with no model call; or the
    generated text of the first candidate the model returned for the prompt
    built from the corrected text and the stored history. *)
Theorem reply_provenance
        (kb : glossary) (corrector : string -> result string)
        (nlp : string -> nat -> nat -> result generations)
        (raw answer : string) (w w1 : World) :
  compute_answer kb corrector nlp raw w = (Ok answer, w1) ->
  exists corrected,
    corrector raw = Ok corrected /\
    ((is_construction_related kb corrected = false /\
      answer = refusal /\ w1 = w) \/
     (exists key,
         In (key, answer) kb /\
         is_substring key (Py.lower corrected) /\
         answer <> EmptyString /\
         model_calls (trace w1) = model_calls (trace w)) \/
     (exists d rest,
         nlp (build_prompt corrected (history w)) 250 1 = Ok (d :: rest) /\
         Py.dict_get "generated_text" d = Some answer /\
         model_calls (trace w1) =
           (model_calls (trace w) ++ [build_prompt corrected (history w)])%list)).
Proof.
  intros Hrun.
  destruct (corrector raw) as [corrected|e] eqn:Hc;
    [|rewrite (compute_answer_corrector_raise kb corrector nlp raw w e Hc) in Hrun;
      discriminate].
  exists corrected. split; [reflexivity|].
  destruct (is_construction_related kb corrected) eqn:Hrel.
  - rewrite (compute_answer_related kb corrector nlp raw corrected w Hc Hrel)
      in Hrun.
    destruct (Py.truthy (get_knowledge_answer kb corrected)) eqn:Ht.
    + right. left.
      destruct (generate_response_answered kb nlp corrected (history w)
                  (advised raw corrected w) Ht) as [value [Hget Hgen]].
      rewrite Hgen in Hrun. injection Hrun as <- <-.
      destruct (scan_items_some _ _ _ Hget)
        as (pre & key & post & Hkb & Hkey & _).
      exists key. repeat split.
      * rewrite Hkb. apply in_or_app. right. now left.
      * exact Hkey.
      * apply truthy_some. now rewrite <- Hget.
      * simpl. rewrite model_calls_app. simpl. rewrite app_nil_r.
        apply advised_model_calls.
    + right. right.
      rewrite (generate_response_generating kb nlp corrected (history w) _ Ht)
        in Hrun.
      unfold run_model, bind, emit, lift in Hrun. simpl in Hrun.
      destruct (nlp (build_prompt corrected (history w)) 250 1)
        as [[|d rest]|e]; try discriminate.
      destruct (Py.dict_get "generated_text" d) as [text|] eqn:Hd;
        try discriminate.
      injection Hrun as <- <-. exists d, rest.
      split; [reflexivity|]. split; [exact Hd|].
      simpl. rewrite !model_calls_app. simpl. rewrite app_nil_r.
      now rewrite advised_model_calls.
  - left.
    rewrite (compute_answer_refused kb corrector nlp raw corrected w Hc Hrel)
      in Hrun.
    injection Hrun as <- <-. now repeat split.
Qed.

Lemma reply_provenance_witness :
  exists corrected,
    Demo.corrector "what is cemant" = Ok corrected /\
    ((is_construction_related Demo.kb corrected = false /\
      Demo.cement_answer = refusal /\
      looked_up "what is cement"
        (advised "what is cemant" "what is cement" Demo.w4) = Demo.w4) \/
     (exists key,
         In (key, Demo.cement_answer) Demo.kb /\
         is_substring key (Py.lower corrected) /\
         Demo.cement_answer <> EmptyString /\
         model_calls
           (trace (looked_up "what is cement"
                     (advised "what is cemant" "what is cement" Demo.w4)))
         = model_calls (trace Demo.w4)) \/
     (exists d rest,
         Demo.nlp (build_prompt corrected (history Demo.w4)) 250 1
           = Ok (d :: rest) /\
         Py.dict_get "generated_text" d = Some Demo.cement_answer /\
         model_calls
           (trace (looked_up "what is cement"
                     (advised "what is cemant" "what is cement" Demo.w4)))
         = (model_calls (trace Demo.w4) ++
            [build_prompt corrected (history Demo.w4)])%list)).
Proof.
  apply (reply_provenance Demo.kb Demo.corrector Demo.nlp "what is cemant"
           Demo.cement_answer Demo.w4
           (looked_up "what is cement"
              (advised "what is cemant" "what is cement" Demo.w4))).
  reflexivity.
Defined.

(** ** What one run of the handler can do *)

(** The world [compute_answer] leaves, by the path taken. *)
Lemma compute_answer_world
      (kb : glossary) (corrector : string -> result string)
      (nlp : string -> nat -> nat -> result generations)
      (raw : string) (w : World) :
  snd (compute_answer kb corrector nlp raw w) =
  match corrector raw with
  | Raise _ => w
  | Ok corrected =>
      if is_construction_related kb corrected then
        if Py.truthy (get_knowledge_answer kb corrected)
        then looked_up corrected (advised raw corrected w)
        else called_model (build_prompt corrected (history w))
               (looked_up corrected (advised raw corrected w))
      else w
  end.
Proof.
  destruct (corrector raw) as [corrected|e] eqn:Hc.
  - destruct (is_construction_related kb corrected) eqn:Hrel.
    + rewrite (compute_answer_related kb corrector nlp raw corrected w Hc Hrel).
      destruct (Py.truthy (get_knowledge_answer kb corrected)) eqn:Ht.
      * destruct (generate_response_answered kb nlp corrected (history w)
                    (advised raw corrected w) Ht) as [value [_ ->]].
        reflexivity.
      * rewrite (generate_response_generating kb nlp corrected (history w) _ Ht).
        apply run_model_world.
    + now rewrite (compute_answer_refused kb corrector nlp raw corrected w Hc Hrel).
  - now rewrite (compute_answer_corrector_raise kb corrector nlp raw w e Hc).
Qed.

(** The trace a run of the handler leaves: the old trace, then what
    [compute_answer] recorded, then [StRerun] when the run got that far. *)
Lemma submitted_handler_trace
      (kb : glossary) (corrector : string -> result string)
      (nlp : string -> nat -> nat -> result generations)
      (submitted : bool) (raw : string) (w : World) :
  trace (snd (submitted_handler kb corrector nlp submitted raw w)) = trace w \/
  trace (snd (submitted_handler kb corrector nlp submitted raw w)) =
    trace (snd (compute_answer kb corrector nlp raw w)) \/
  trace (snd (submitted_handler kb corrector nlp submitted raw w)) =
    (trace (snd (compute_answer kb corrector nlp raw w)) ++ [StRerun])%list.
Proof.
  destruct (submitted && Py.truthy (Some raw)) eqn:Hgo.
  - apply andb_true_iff in Hgo. destruct Hgo as [-> Hraw].
    apply truthy_some in Hraw.
    rewrite (submitted_handler_cases kb corrector nlp raw w Hraw).
    destruct (compute_answer kb corrector nlp raw w) as [[answer|e] w1];
      simpl; auto.
  - left. now rewrite (submitted_handler_idle kb corrector nlp submitted raw w Hgo).
Qed.

(** X9.  One run of the handler keeps the trace it found and adds to it,
    in this order: at most one advisory, at most one knowledge lookup, at
    most one model call, which is there only after a lookup, and [st.rerun]
    at the end or nothing. *)
Theorem handler_effects_bounded
        (kb : glossary) (corrector : string -> result string)
        (nlp : string -> nat -> nat -> result generations)
        (submitted : bool) (raw : string) (w : World) :
  exists (advisories lookups prompts : list string) (rerun : list event),
    trace (snd (submitted_handler kb corrector nlp submitted raw w)) =
      (trace w ++
       map StInfo advisories ++
       map KnowledgeLookup lookups ++
       map (fun prompt => ModelCall prompt 250 1) prompts ++
       rerun)%list /\
    length advisories <= 1 /\
    length lookups <= 1 /\
    length prompts <= length lookups /\
    (rerun = [] \/ rerun = [StRerun]).
Proof.
  assert (Hcompute : exists advisories lookups prompts : list string,
             trace (snd (compute_answer kb corrector nlp raw w)) =
               (trace w ++
                map StInfo advisories ++
                map KnowledgeLookup lookups ++
                map (fun prompt => ModelCall prompt 250 1) prompts)%list /\
             length advisories <= 1 /\
             length lookups <= 1 /\
             length prompts <= length lookups).
  { rewrite compute_answer_world.
    destruct (corrector raw) as [corrected|e];
      [|exists [], [], []; simpl; rewrite app_nil_r; auto].
    destruct (is_construction_related kb corrected);
      [|exists [], [], []; simpl; rewrite app_nil_r; auto].
    unfold called_model, looked_up, advised.
    destruct (Py.truthy (get_knowledge_answer kb corrected));
      destruct (negb (Py.lower corrected =? Py.lower raw)); simpl.
    - exists [did_you_mean corrected], [corrected], [].
      simpl. rewrite <- !app_assoc. simpl. auto.
    - exists [], [corrected], []. simpl. auto.
    - exists [did_you_mean corrected], [corrected],
        [build_prompt corrected (history w)].
      simpl. rewrite <- !app_assoc. simpl. auto.
    - exists [], [corrected], [build_prompt corrected (history w)].
      simpl. rewrite <- !app_assoc. simpl. auto. }
  destruct Hcompute
    as (advisories & lookups & prompts & Hevs & Hinfo & Hlook & Hmodel).
  destruct (submitted_handler_trace kb corrector nlp submitted raw w)
    as [-> | [-> | ->]].
  - exists [], [], [], []. simpl. rewrite app_nil_r. repeat split; auto.
  - exists advisories, lookups, prompts, []. rewrite app_nil_r.
    repeat split; auto.
  - exists advisories, lookups, prompts, [StRerun].
    rewrite Hevs, <- !app_assoc. repeat split; auto.
Qed.

(** X10.  The advisory appears exactly when the form was submitted with a
    non-empty text, the corrector returned, the corrected text is relevant
    and it differs from the raw text by more than letter case; every other
    run shows none, whatever happens afterwards. *)
Theorem advisory_exactly_when
        (kb : glossary) (corrector : string -> result string)
        (nlp : string -> nat -> nat -> result generations)
        (submitted : bool) (raw : string) (w : World) :
  info_messages (trace (snd (submitted_handler kb corrector nlp submitted raw w)))
  = (info_messages (trace w) ++
     match corrector raw with
     | Ok corrected =>
         if submitted && Py.truthy (Some raw)
            && is_construction_related kb corrected
            && negb (Py.lower corrected =? Py.lower raw)
         then [did_you_mean corrected]
         else []
     | Raise _ => []
     end)%list.
Proof.
  destruct (submitted && Py.truthy (Some raw)) eqn:Hgo.
  - apply andb_true_iff in Hgo. destruct Hgo as [-> Hraw].
    apply truthy_some in Hraw.
    assert (Hinfo :
      info_messages (trace (snd (submitted_handler kb corrector nlp true raw w)))
      = info_messages (trace (snd (compute_answer kb corrector nlp raw w)))).
    { rewrite (submitted_handler_cases kb corrector nlp raw w Hraw).
      destruct (compute_answer kb corrector nlp raw w) as [[answer|e] w1];
        simpl; [|reflexivity].
      rewrite info_messages_app. simpl. apply app_nil_r. }
    rewrite Hinfo, compute_answer_world.
    destruct (corrector raw) as [corrected|e]; [|now rewrite app_nil_r].
    destruct (is_construction_related kb corrected); simpl;
      [|now rewrite app_nil_r].
    unfold called_model, looked_up, advised.
    destruct (Py.truthy (get_knowledge_answer kb corrected));
      destruct (negb (Py.lower corrected =? Py.lower raw)); simpl;
      rewrite ?info_messages_app; simpl; now rewrite ?app_nil_r.
  - rewrite (submitted_handler_idle kb corrector nlp submitted raw w Hgo).
    destruct (corrector raw); simpl; now rewrite app_nil_r.
Qed.

(** X11.  With a glossary whose answers are all non-empty, a submitted
    non-empty text makes the handler fail exactly when the spelling corrector
    fails, and with the corrector's exception: the model cannot be the
    cause. *)
Theorem handler_fails_only_with_corrector
        (kb : glossary) (corrector : string -> result string)
        (nlp : string -> nat -> nat -> result generations)
        (raw : string) (w : World) (e : exn) :
  answers_nonempty kb ->
  raw <> EmptyString ->
  (fst (submitted_handler kb corrector nlp true raw w) = Raise e <->
   corrector raw = Raise e).
Proof.
  intros Hne Hraw.
  rewrite (submitted_handler_cases kb corrector nlp raw w Hraw).
  destruct (corrector raw) as [corrected|e'] eqn:Hc.
  - split; [|discriminate]. intros H. exfalso.
    destruct (is_construction_related kb corrected) eqn:Hrel.
    + rewrite (compute_answer_related kb corrector nlp raw corrected w Hc Hrel)
        in H.
      assert (Ht : Py.truthy (get_knowledge_answer kb corrected) = true).
      { apply related_iff_answer in Hrel.
        destruct (get_knowledge_answer kb corrected) as [value|] eqn:Hget;
          [|now contradiction Hrel].
        apply truthy_some. apply scan_items_answer_in in Hget.
        apply in_map_iff in Hget. destruct Hget as [entry [<- Hin]].
        unfold answers_nonempty in Hne. rewrite Forall_forall in Hne.
        now apply Hne. }
      destruct (generate_response_answered kb nlp corrected (history w)
                  (advised raw corrected w) Ht) as [value [_ Hgen]].
      rewrite Hgen in H. discriminate.
    + rewrite (compute_answer_refused kb corrector nlp raw corrected w Hc Hrel)
        in H. discriminate.
  - rewrite (compute_answer_corrector_raise kb corrector nlp raw w e' Hc).
    simpl. split; congruence.
Qed.

Lemma handler_fails_only_with_corrector_witness :
  let e := LibraryError "corrector failed" in
  fst (submitted_handler Demo.kb Demo.corrector_failing Demo.nlp_failing true
                         "what is cemant" Demo.w4) = Raise e <->
  Demo.corrector_failing "what is cemant" = Raise e.
Proof.
  cbv zeta.
  apply (handler_fails_only_with_corrector Demo.kb Demo.corrector_failing
           Demo.nlp_failing "what is cemant" Demo.w4).
  - repeat constructor; discriminate.
  - discriminate.
Defined.

(** ** Model output the program cannot use *)

(** X12.  When the generating branch is reached and the model returns no
    candidate, the handler ends with [IndexError]; when the first candidate
    has no [generated_text], it ends with [KeyError].  In both cases the
    call is on the trace and nothing is appended to the history. *)
Theorem unusable_model_output
        (kb : glossary) (corrector : string -> result string)
        (nlp : string -> nat -> nat -> result generations)
        (raw corrected : string) (w : World) :
  raw <> EmptyString ->
  corrector raw = Ok corrected ->
  is_construction_related kb corrected = true ->
  Py.truthy (get_knowledge_answer kb corrected) = false ->
  let prompt := build_prompt corrected (history w) in
  let run := submitted_handler kb corrector nlp true raw w in
  (nlp prompt 250 1 = Ok [] -> fst run = Raise IndexError) /\
  (forall d rest,
      nlp prompt 250 1 = Ok (d :: rest) ->
      Py.dict_get "generated_text" d = None ->
      fst run = Raise (KeyError "generated_text")) /\
  (forall a, fst run = Raise a ->
             history (snd run) = history w /\
             model_calls (trace (snd run)) =
               (model_calls (trace w) ++ [prompt])%list).
Proof.
  intros Hraw Hc Hrel Ht prompt run. unfold run.
  rewrite (submitted_handler_cases kb corrector nlp raw w Hraw).
  rewrite (compute_answer_related kb corrector nlp raw corrected w Hc Hrel).
  rewrite (generate_response_generating kb nlp corrected (history w) _ Ht).
  fold prompt.
  pose proof (run_model_world nlp prompt
                (looked_up corrected (advised raw corrected w))) as Hworld.
  repeat split.
  - intros Hout. unfold run_model, bind, emit, lift. simpl.
    now rewrite Hout.
  - intros d rest Hout Hd. unfold run_model, bind, emit, lift. simpl.
    now rewrite Hout, Hd.
  - destruct (run_model nlp prompt
                (looked_up corrected (advised raw corrected w)))
      as [[text|e] w1]; simpl in *; [discriminate|].
    subst w1. simpl. apply advised_history.
  - destruct (run_model nlp prompt
                (looked_up corrected (advised raw corrected w)))
      as [[text|e] w1]; simpl in *; [discriminate|].
    subst w1. simpl. rewrite !model_calls_app. simpl. rewrite app_nil_r.
    now rewrite advised_model_calls.
Qed.

Lemma unusable_model_output_witness :
  let nlp_silent := fun (_ : string) (_ _ : nat) => Ok ([] : generations) in
  let prompt := build_prompt "what is a beam" (history Demo.w4) in
  let run := submitted_handler Demo.kb_blank Demo.corrector nlp_silent true
                               "what is a beam" Demo.w4 in
  (nlp_silent prompt 250 1 = Ok [] -> fst run = Raise IndexError) /\
  (forall d rest,
      nlp_silent prompt 250 1 = Ok (d :: rest) ->
      Py.dict_get "generated_text" d = None ->
      fst run = Raise (KeyError "generated_text")) /\
  (forall a, fst run = Raise a ->
             history (snd run) = history Demo.w4 /\
             model_calls (trace (snd run)) =
               (model_calls (trace Demo.w4) ++ [prompt])%list).
Proof.
  cbv zeta.
  apply (unusable_model_output Demo.kb_blank Demo.corrector
           (fun (_ : string) (_ _ : nat) => Ok ([] : generations))
           "what is a beam" "what is a beam" Demo.w4).
  - discriminate.
  - reflexivity.
  - reflexivity.
  - reflexivity.
Defined.

(** One run of the handler only adds to the trace. *)
Lemma submitted_handler_trace_prefix
      (kb : glossary) (corrector : string -> result string)
      (nlp : string -> nat -> nat -> result generations)
      (submitted : bool) (raw : string) (w : World) :
  exists evs,
    trace (snd (submitted_handler kb corrector nlp submitted raw w)) =
    (trace w ++ evs)%list.
Proof.
  assert (Hcompute : exists evs,
             trace (snd (compute_answer kb corrector nlp raw w)) =
             (trace w ++ evs)%list).
  { rewrite compute_answer_world.
    destruct (corrector raw) as [corrected|e];
      [|exists []; now rewrite app_nil_r].
    destruct (is_construction_related kb corrected);
      [|exists []; now rewrite app_nil_r].
    unfold called_model, looked_up, advised.
    destruct (Py.truthy (get_knowledge_answer kb corrected));
      destruct (negb (Py.lower corrected =? Py.lower raw)); simpl;
      eexists; rewrite <- ?app_assoc; simpl; reflexivity. }
  destruct Hcompute as [evs Hevs].
  destruct (submitted_handler_trace kb corrector nlp submitted raw w)
    as [-> | [-> | ->]].
  - exists []. now rewrite app_nil_r.
  - now exists evs.
  - exists (evs ++ [StRerun])%list. now rewrite Hevs, <- app_assoc.
Qed.

(** ** Sessions *)

(** One run of the handler leaves the history as it was or adds one
    exchange to it. *)
Lemma submitted_handler_history
      (kb : glossary) (corrector : string -> result string)
      (nlp : string -> nat -> nat -> result generations)
      (submitted : bool) (raw : string) (w : World) :
  history (snd (submitted_handler kb corrector nlp submitted raw w)) = history w \/
  (raw <> EmptyString /\
   exists answer,
     history (snd (submitted_handler kb corrector nlp submitted raw w)) =
     (history w ++ [(sender_user, raw); (sender_bot, answer)])%list).
Proof.
  destruct (submitted && Py.truthy (Some raw)) eqn:Hgo.
  - apply andb_true_iff in Hgo. destruct Hgo as [-> Hraw].
    apply truthy_some in Hraw.
    rewrite (submitted_handler_cases kb corrector nlp raw w Hraw).
    pose proof (compute_answer_history kb corrector nlp raw w) as Hhist.
    destruct (compute_answer kb corrector nlp raw w) as [[answer|e] w1];
      simpl in *.
    + right. split; [exact Hraw|]. exists answer. now rewrite Hhist.
    + now left.
  - left. now rewrite (submitted_handler_idle kb corrector nlp submitted raw w Hgo).
Qed.

Lemma exchanges_positions (h : list turn) :
  exchanges h ->
  Nat.even (length h) = true /\
  forall i sender msg,
    nth_error h i = Some (sender, msg) ->
    if Nat.even i then sender = sender_user /\ msg <> EmptyString
    else sender = sender_bot.
Proof.
  induction 1 as [|h question answer _ [IHlen IHpos] Hq].
  - split; [reflexivity|]. intros i sender msg H. now destruct i.
  - split.
    + rewrite length_app. simpl. rewrite Nat.even_add, IHlen. reflexivity.
    + intros i sender msg Hnth.
      destruct (Nat.lt_ge_cases i (length h)) as [Hlt|Hge].
      * rewrite nth_error_app1 in Hnth by exact Hlt. now apply IHpos.
      * rewrite nth_error_app2 in Hnth by exact Hge.
        replace i with (length h + (i - length h)) by lia.
        rewrite Nat.even_add, IHlen.
        destruct (i - length h) as [|[|k]]; simpl in *.
        -- injection Hnth as <- <-. now split.
        -- injection Hnth as <- <-. reflexivity.
        -- now destruct k.
Qed.

Lemma run_session_exchanges
      (kb : glossary) (corrector : string -> result string)
      (nlp : string -> nat -> nat -> result generations)
      (inputs : list submission) (stored : option (list turn))
      (tr : list event) :
  exchanges (ensure_history stored) ->
  exchanges (history (run_session kb corrector nlp inputs stored tr)).
Proof.
  revert stored tr. induction inputs as [|[submitted raw] inputs IH];
    intros stored tr Hinv; simpl; [exact Hinv|].
  apply IH. simpl.
  destruct (submitted_handler_history kb corrector nlp submitted raw
              (mkWorld (ensure_history stored) tr))
    as [-> | [Hraw [answer ->]]]; simpl.
  - exact Hinv.
  - now constructor.
Qed.

(** X13.  In a session that starts without a history, whatever is submitted
    and whatever the libraries do, the stored history is always a sequence of
    exchanges: its length is even, the turns at even positions are user turns
    with a non-empty text, and the turns at odd positions are bot turns. *)
Theorem session_history_alternates
        (kb : glossary) (corrector : string -> result string)
        (nlp : string -> nat -> nat -> result generations)
        (inputs : list submission) (tr : list event) :
  let h := history (run_session kb corrector nlp inputs None tr) in
  Nat.even (length h) = true /\
  forall i sender msg,
    nth_error h i = Some (sender, msg) ->
    if Nat.even i then sender = sender_user /\ msg <> EmptyString
    else sender = sender_bot.
Proof.
  apply exchanges_positions, run_session_exchanges. constructor.
Qed.

(** X14.  A session never rewrites or deletes what it stored: the history
    and the trace at the start are prefixes of those at the end, and the
    history grows by two turns per run at most. *)
Theorem session_append_only
        (kb : glossary) (corrector : string -> result string)
        (nlp : string -> nat -> nat -> result generations)
        (inputs : list submission) (h : list turn) (tr : list event) :
  exists new evs,
    history (run_session kb corrector nlp inputs (Some h) tr) = (h ++ new)%list /\
    trace (run_session kb corrector nlp inputs (Some h) tr) = (tr ++ evs)%list /\
    length new <= 2 * length inputs.
Proof.
  revert h tr. induction inputs as [|[submitted raw] inputs IH];
    intros h tr.
  - exists [], []. simpl. now rewrite !app_nil_r.
  - cbn [run_session script_run ensure_history fst snd].
    set (w' := snd (submitted_handler kb corrector nlp submitted raw
                      (mkWorld h tr))).
    destruct (IH (history w') (trace w')) as (new & evs & Hh & Ht & Hlen).
    destruct (submitted_handler_trace_prefix kb corrector nlp submitted
                raw (mkWorld h tr)) as [evs0 Hevs0].
    fold w' in Hevs0. simpl in Hevs0.
    destruct (submitted_handler_history kb corrector nlp submitted raw
                (mkWorld h tr)) as [Hsame | [_ [answer Hgrow]]];
      fold w' in Hsame || fold w' in Hgrow; simpl in *.
    + exists new, (evs0 ++ evs)%list. rewrite Hh, Ht, Hsame, Hevs0.
      rewrite <- app_assoc. repeat split. lia.
    + exists ([(sender_user, raw); (sender_bot, answer)] ++ new)%list,
        (evs0 ++ evs)%list.
      rewrite Hh, Ht, Hgrow, Hevs0. rewrite <- !app_assoc.
      repeat split. simpl. lia.
Qed.

(** ** The page *)

Lemma render_history_nth (h : list turn) (i : nat) (t : turn) :
  nth_error h i = Some t ->
  nth_error (render_history h) (S i) = Some (render_turn t).
Proof.
  intros Hnth. unfold render_history. simpl.
  rewrite nth_error_app1.
  - now rewrite nth_error_map, Hnth.
  - rewrite length_map. apply nth_error_Some. now rewrite Hnth.
Qed.

(** X15.  After a submission that got a reply, the next run of the script
    draws the bubbles it drew before, then a user bubble with the raw input
    and a bot bubble with the reply, inside the chat container: the senders
    the handler stores are the ones the drawing loop tells apart. *)
Theorem page_after_exchange
        (kb : glossary) (corrector : string -> result string)
        (nlp : string -> nat -> nat -> result generations)
        (raw answer : string) (w w1 : World)
        (tr' : list event) (next : submission) :
  raw <> EmptyString ->
  compute_answer kb corrector nlp raw w = (Ok answer, w1) ->
  let w' := snd (submitted_handler kb corrector nlp true raw w) in
  fst (script_run kb corrector nlp (Some (history w')) tr' next) =
  (["<div class='chat-container'>"] ++
   map render_turn (history w) ++
   [user_bubble raw; bot_bubble answer; "</div>"])%list.
Proof.
  intros Hraw Hrun w'. unfold w'.
  rewrite (submitted_handler_ok kb corrector nlp raw answer w w1 Hraw Hrun).
  pose proof (compute_answer_history kb corrector nlp raw w) as Hhist.
  rewrite Hrun in Hhist. simpl in Hhist.
  unfold script_run, render_history. cbn [fst snd ensure_history history].
  rewrite Hhist, map_app, <- app_assoc. reflexivity.
Qed.

Lemma page_after_exchange_witness :
  let w' := snd (submitted_handler Demo.kb Demo.corrector Demo.nlp true
                                   "what is cemant" Demo.w4) in
  fst (script_run Demo.kb Demo.corrector Demo.nlp (Some (history w')) []
                  (false, EmptyString)) =
  (["<div class='chat-container'>"] ++
   map render_turn (history Demo.w4) ++
   [user_bubble "what is cemant"; bot_bubble Demo.cement_answer; "</div>"])%list.
Proof.
  cbv zeta.
  apply (page_after_exchange Demo.kb Demo.corrector Demo.nlp
           "what is cemant" Demo.cement_answer Demo.w4
           (looked_up "what is cement"
              (advised "what is cemant" "what is cement" Demo.w4))
           [] (false, EmptyString)).
  - discriminate.
  - reflexivity.
Defined.

(** X16.  At any point of a session that started without a history, the
    page is the opening of the container, one bubble per stored turn in the
    order of the turns, and the closing; the turns at even positions are
    drawn as user bubbles and those at odd positions as bot bubbles, each
    with the stored text as it is. *)
Theorem session_page
        (kb : glossary) (corrector : string -> result string)
        (nlp : string -> nat -> nat -> result generations)
        (inputs : list submission) (tr tr' : list event) (next : submission) :
  let h := history (run_session kb corrector nlp inputs None tr) in
  let page := fst (script_run kb corrector nlp (Some h) tr' next) in
  length page = length h + 2 /\
  nth_error page 0 = Some "<div class='chat-container'>" /\
  nth_error page (S (length h)) = Some "</div>" /\
  forall i sender msg,
    nth_error h i = Some (sender, msg) ->
    nth_error page (S i) =
      Some (if Nat.even i then user_bubble msg else bot_bubble msg).
Proof.
  intros h page.
  assert (Hinv : exchanges h).
  { apply run_session_exchanges. constructor. }
  destruct (exchanges_positions h Hinv) as [_ Hpos].
  unfold page, script_run. cbn [fst ensure_history].
  split; [|split; [|split]].
  - unfold render_history. simpl. rewrite length_app, length_map. simpl. lia.
  - reflexivity.
  - unfold render_history. simpl.
    rewrite nth_error_app2 by (rewrite length_map; lia).
    rewrite length_map, Nat.sub_diag. reflexivity.
  - intros i sender msg Hnth.
    rewrite (render_history_nth h i (sender, msg) Hnth).
    specialize (Hpos i sender msg Hnth). unfold render_turn. simpl.
    destruct (Nat.even i).
    + destruct Hpos as [-> _]. reflexivity.
    + rewrite Hpos. reflexivity.
Qed.

(** ** The reply is decided by the corrected text *)

Lemma run_model_reply (nlp : string -> nat -> nat -> result generations)
      (prompt : string) (w1 w2 : World) :
  fst (run_model nlp prompt w1) = fst (run_model nlp prompt w2).
Proof.
  unfold run_model, bind, emit, lift. simpl.
  now destruct (nlp prompt 250 1) as [[|d rest]|e].
Qed.

Lemma generate_response_reply
      (kb : glossary) (nlp : string -> nat -> nat -> result generations)
      (user_input : string) (h : list turn) (w1 w2 : World) :
  fst (generate_response kb nlp user_input h w1) =
  fst (generate_response kb nlp user_input h w2).
Proof.
  destruct (Py.truthy (get_knowledge_answer kb user_input)) eqn:Ht.
  - destruct (generate_response_answered kb nlp user_input h w1 Ht)
      as [v1 [Hv1 ->]].
    destruct (generate_response_answered kb nlp user_input h w2 Ht)
      as [v2 [Hv2 ->]]. simpl. congruence.
  - rewrite !(generate_response_generating kb nlp user_input h _ Ht).
    apply run_model_reply.
Qed.

(** X17.  The raw text decides the reply only through its correction: two
    submissions that the corrector maps to the same outcome get the same
    reply or the same exception from the same history, whatever the trace.
    The glossary and the model see the corrected text, never the raw one. *)
Theorem reply_depends_on_correction
        (kb : glossary) (corrector : string -> result string)
        (nlp : string -> nat -> nat -> result generations)
        (raw1 raw2 : string) (w1 w2 : World) :
  corrector raw1 = corrector raw2 ->
  history w1 = history w2 ->
  fst (compute_answer kb corrector nlp raw1 w1) =
  fst (compute_answer kb corrector nlp raw2 w2).
Proof.
  intros Hsame Hhist.
  destruct (corrector raw2) as [corrected|e] eqn:Hc2.
  - destruct (is_construction_related kb corrected) eqn:Hrel.
    + rewrite (compute_answer_related kb corrector nlp raw1 corrected w1 Hsame Hrel).
      rewrite (compute_answer_related kb corrector nlp raw2 corrected w2 Hc2 Hrel).
      rewrite Hhist. apply generate_response_reply.
    + rewrite (compute_answer_refused kb corrector nlp raw1 corrected w1 Hsame Hrel).
      now rewrite (compute_answer_refused kb corrector nlp raw2 corrected w2 Hc2 Hrel).
  - rewrite (compute_answer_corrector_raise kb corrector nlp raw1 w1 e Hsame).
    now rewrite (compute_answer_corrector_raise kb corrector nlp raw2 w2 e Hc2).
Qed.

Lemma reply_depends_on_correction_witness :
  fst (compute_answer Demo.kb Demo.corrector Demo.nlp "what is cemant" Demo.w4) =
  fst (compute_answer Demo.kb Demo.corrector Demo.nlp "what is cement"
         (mkWorld (history Demo.w4) [StRerun])).
Proof.
  apply (reply_depends_on_correction Demo.kb Demo.corrector Demo.nlp
           "what is cemant" "what is cement" Demo.w4
           (mkWorld (history Demo.w4) [StRerun])).
  - reflexivity.
  - reflexivity.
Defined.
